(** * A shallow embedding of the web-scraper session orchestrator

    The development follows the TypeScript sources:
    - [types/Scraper.types.ts]  : the configuration, result and proxy records;
    - [utils/parseBool], [utils/getBrowser] : the two normalisers;
    - [utils/constants/browser.defaults.ts] : the default launch options;
    - [Scraper] : [setupLaunchOptions], [setupBrowser], [setupContext],
      [setupPage], [cleanup], [scrape] and [run].

    JavaScript strings are [string]; numbers are rationals ([Q], every finite
    double is one, and [x / 2] is exact); [process.env] and header records are
    finite maps; an optional field [f?: T] is an [option T]. *)

From Stdlib Require Import Ascii String QArith.
From stdpp Require Import base option list strings gmap.

Local Open Scope string_scope.
Local Open Scope list_scope.

(** ** Types ([Scraper.types.ts]) *)

Inductive PlaywrightLoadEvents :=
| load | domcontentloaded | networkidle | commit.

(** [StringBoolean] is a union of string literals and of the two boolean
    literals; at run time a value of that type is a string or a boolean. *)
Inductive StringBoolean :=
| SBString (s : string)
| SBBool (b : bool).

Module ProxyType.
Inductive t := None | IPv6 | Mobile | Residential | Datacenter | Custom.

(** The run-time value of each enum member. *)
Definition value (p : t) : string :=
  match p with
  | None => "none"
  | IPv6 => "ipv6"
  | Mobile => "mobile"
  | Residential => "residential"
  | Datacenter => "datacenter"
  | Custom => "custom"
  end.
End ProxyType.

(** [BrowserTypes] is a union of three string literals; the code switches on
    the run-time string, so a family is a string here and the three literals
    are the supported ones. *)
Definition BrowserTypes := string.

Module IScraperConfig.
Record t := mk {
  url : string;
  proxy_type : ProxyType.t;
  eval_js : option string;
  browser_type : option BrowserTypes;
  headless : option StringBoolean;
  block_ads : option StringBoolean;
  stealth : option StringBoolean;
  timeout : option Q;
  block_resources : option string;
  wait_until : option PlaywrightLoadEvents;
  view_source : option StringBoolean;
  screenshot : option StringBoolean;
  wait_for_css : option string;
  wait_for : option Q
}.
End IScraperConfig.

Module IProxyConfig.
Record t := mk {
  server : string;
  bypass : option string;
  username : option string;
  password : option string
}.
End IProxyConfig.

(** Values that cross the evaluation boundary ([unknown] in the source). *)
#[local] Set Warnings "-register-all".
Inductive JsValue :=
| JsUndefined
| JsNull
| JsBool (b : bool)
| JsNumber (q : Q)
| JsString (s : string)
| JsArray (items : list JsValue)
| JsObject (fields : list (string * JsValue)).
#[local] Set Warnings "register-all".

Inductive SameSite := Strict | Lax | NoSameSite.

Module Cookie.
Record t := mk {
  name : string;
  value : string;
  domain : string;
  path : string;
  expires : Q;
  httpOnly : bool;
  secure : bool;
  sameSite : SameSite
}.
End Cookie.

Module IScraperResult.
(** [{} as IScraperResult] has no field at all, so every field is optional
    at run time, the two the interface declares mandatory included. *)
Record t := mk {
  url : option string;
  status_code : option Z;
  body : option string;
  error : option string;
  cookies : option (list Cookie.t);
  headers : option (gmap string string);
  screenshot : option string;
  eval_result : option JsValue
}.

Definition empty : t :=
  mk None None None None None None None None.

Definition set_url (v : string) (r : t) : t :=
  mk (Some v) (status_code r) (body r) (error r) (cookies r) (headers r)
     (screenshot r) (eval_result r).
Definition set_status_code (v : Z) (r : t) : t :=
  mk (url r) (Some v) (body r) (error r) (cookies r) (headers r)
     (screenshot r) (eval_result r).
Definition set_body (v : string) (r : t) : t :=
  mk (url r) (status_code r) (Some v) (error r) (cookies r) (headers r)
     (screenshot r) (eval_result r).
Definition set_error (v : string) (r : t) : t :=
  mk (url r) (status_code r) (body r) (Some v) (cookies r) (headers r)
     (screenshot r) (eval_result r).
Definition set_cookies (v : list Cookie.t) (r : t) : t :=
  mk (url r) (status_code r) (body r) (error r) (Some v) (headers r)
     (screenshot r) (eval_result r).
Definition set_headers (v : gmap string string) (r : t) : t :=
  mk (url r) (status_code r) (body r) (error r) (cookies r) (Some v)
     (screenshot r) (eval_result r).
Definition set_screenshot (v : string) (r : t) : t :=
  mk (url r) (status_code r) (body r) (error r) (cookies r) (headers r)
     (Some v) (eval_result r).
Definition set_eval_result (v : JsValue) (r : t) : t :=
  mk (url r) (status_code r) (body r) (error r) (cookies r) (headers r)
     (screenshot r) (Some v).
End IScraperResult.

(** ** Normalisers ([utils/parseBool], [utils/getBrowser]) *)

Definition parseBool (value : option StringBoolean) : bool :=
  match value with
  | None => true
  | Some (SBString s) =>
      if (s =? "true") || (s =? "1") || (s =? "yes") || (s =? "on")
         || (s =? "enabled")
      then true else false
  | Some (SBBool _) => false
  end.

(** The three engines of the automation client, with [BrowserType.name()]. *)
Inductive BrowserEngine := chromium | firefox | webkit.

Definition engine_name (b : BrowserEngine) : string :=
  match b with
  | chromium => "chromium"
  | firefox => "firefox"
  | webkit => "webkit"
  end.

Definition getBrowser (browser : option BrowserTypes) : BrowserEngine :=
  match browser with
  | Some b =>
      if b =? "webkit" then webkit
      else if b =? "firefox" then firefox
      else chromium
  | None => chromium
  end.

(** ** Launch options ([browser.defaults.ts], [Scraper.setupLaunchOptions]) *)

Module LaunchOptions.
Record t := mk {
  headless : bool;
  ignoreDefaultArgs : list string;
  proxy : option IProxyConfig.t;
  stealth : option bool;
  blockAds : option bool
}.

Definition set_proxy (v : option IProxyConfig.t) (o : t) : t :=
  mk (headless o) (ignoreDefaultArgs o) v (stealth o) (blockAds o).
Definition set_headless (v : bool) (o : t) : t :=
  mk v (ignoreDefaultArgs o) (proxy o) (stealth o) (blockAds o).
Definition set_stealth (v : bool) (o : t) : t :=
  mk (headless o) (ignoreDefaultArgs o) (proxy o) (Some v) (blockAds o).
Definition set_blockAds (v : bool) (o : t) : t :=
  mk (headless o) (ignoreDefaultArgs o) (proxy o) (stealth o) (Some v).
End LaunchOptions.

(** The exported constant; the class clones it through JSON, which for this
    value is the identity. *)
Definition launchOptions : LaunchOptions.t :=
  LaunchOptions.mk true ["--headless"] None None None.

(** [String.prototype.toUpperCase] on the ASCII letters; the enum values it is
    applied to are ASCII. *)
Definition upper_ascii (c : Ascii.ascii) : Ascii.ascii :=
  let n := Ascii.nat_of_ascii c in
  if (97 <=? n)%nat && (n <=? 122)%nat then Ascii.ascii_of_nat (n - 32) else c.

Fixpoint toUpperCase (s : string) : string :=
  match s with
  | EmptyString => EmptyString
  | String c r => String (upper_ascii c) (toUpperCase r)
  end.

(** [process.env[k] ?? ""]. *)
Definition env_or_empty (env : gmap string string) (k : string) : string :=
  default "" (env !! k).

(** The immediately-invoked arrow function of [setupLaunchOptions]. *)
Definition resolveProxy (env : gmap string string) (p : ProxyType.t)
  : option IProxyConfig.t :=
  match p with
  | ProxyType.None => None
  | _ =>
      let T := toUpperCase (ProxyType.value p) in
      Some (IProxyConfig.mk
              (env_or_empty env ("PROXY_" ++ T ++ "_SERVER"))
              (Some (env_or_empty env ("PROXY_" ++ T ++ "_BYPASS")))
              (Some (env_or_empty env ("PROXY_" ++ T ++ "_USERNAME")))
              (Some (env_or_empty env ("PROXY_" ++ T ++ "_PASSWORD"))))
  end.

Definition setupLaunchOptions (env : gmap string string)
    (cfg : IScraperConfig.t) (o : LaunchOptions.t) : LaunchOptions.t :=
  let o := LaunchOptions.set_proxy
             (resolveProxy env (IScraperConfig.proxy_type cfg)) o in
  let o := LaunchOptions.set_headless
             (parseBool (IScraperConfig.headless cfg)) o in
  match IScraperConfig.browser_type cfg with
  | Some b =>
      if b =? "webkit" then LaunchOptions.set_proxy None o
      else if b =? "firefox" then o
      else if b =? "chromium" then
        LaunchOptions.set_blockAds (parseBool (IScraperConfig.block_ads cfg))
          (LaunchOptions.set_stealth (parseBool (IScraperConfig.stealth cfg)) o)
      else o
  | None => o
  end.

(** ** Built-ins the orchestrator relies on *)

(** Every exception the automation client, [decodeURIComponent] and the class
    itself raise is an [Error] object; the code reads only its [message]. *)
Record JsError := mkError { message : string }.

(** JavaScript truthiness of the three kinds of value the code tests. *)
Definition truthy_string (s : string) : bool := negb (s =? "").
Definition truthy_number (q : Q) : bool := negb (Qeq_bool q 0).
Definition truthy_StringBoolean (v : StringBoolean) : bool :=
  match v with
  | SBString s => truthy_string s
  | SBBool b => b
  end.

(** [s.split(",")]. *)
Fixpoint split_comma (s : string) : list string :=
  match s with
  | EmptyString => [""]
  | String c r =>
      if Ascii.eqb c ","%char then "" :: split_comma r
      else match split_comma r with
           | x :: xs => String c x :: xs
           | [] => [String c ""]
           end
  end.

(** [decodeURIComponent]: every [%XY] escape becomes the octet [XY]; the
    octets must form well-formed UTF-8 sequences made of escapes only, and
    anything else is a [URIError].  Strings are kept as their UTF-8 bytes, so
    the decoded octets are the decoded text. *)
Definition hex_digit (c : Ascii.ascii) : option N :=
  let n := Ascii.N_of_ascii c in
  if (48 <=? n)%N && (n <=? 57)%N then Some (n - 48)%N
  else if (65 <=? n)%N && (n <=? 70)%N then Some (n - 55)%N
  else if (97 <=? n)%N && (n <=? 102)%N then Some (n - 87)%N
  else None.

Inductive utf8_state :=
| Boundary
| Continuation (more : nat) (lo hi : N).

Definition in_range (lo hi b : N) : bool := (lo <=? b)%N && (b <=? hi)%N.

Definition utf8_step (st : utf8_state) (b : N) : option utf8_state :=
  match st with
  | Boundary =>
      if (b <? 128)%N then Some Boundary
      else if in_range 194 223 b then Some (Continuation 0 128 191)
      else if (b =? 224)%N then Some (Continuation 1 160 191)
      else if in_range 225 236 b || in_range 238 239 b
           then Some (Continuation 1 128 191)
      else if (b =? 237)%N then Some (Continuation 1 128 159)
      else if (b =? 240)%N then Some (Continuation 2 144 191)
      else if in_range 241 243 b then Some (Continuation 2 128 191)
      else if (b =? 244)%N then Some (Continuation 2 128 143)
      else None
  | Continuation more lo hi =>
      if in_range lo hi b then
        match more with
        | O => Some Boundary
        | S k => Some (Continuation k 128 191)
        end
      else None
  end.

Fixpoint decode_from (st : utf8_state) (s : string) : option string :=
  match s with
  | EmptyString =>
      match st with Boundary => Some EmptyString | _ => None end
  | String c r =>
      if Ascii.eqb c "%"%char then
        match r with
        | String h (String l r') =>
            match hex_digit h, hex_digit l with
            | Some a, Some b =>
                let octet := (16 * a + b)%N in
                match utf8_step st octet with
                | Some st' =>
                    String (Ascii.ascii_of_N octet) <$> decode_from st' r'
                | None => None
                end
            | _, _ => None
            end
        | _ => None
        end
      else
        match st with
        | Boundary => String c <$> decode_from Boundary r
        | _ => None
        end
  end.

Definition decodeURIComponent (s : string) : JsError + string :=
  match decode_from Boundary s with
  | Some d => inr d
  | None => inl (mkError "URI malformed")
  end.

(** ** The automation service

    The remote engine is an external collaborator.  Its behaviour during one
    session is a [Service]: for every request the orchestrator can issue, the
    page events the service emits while the request is pending and the way the
    request settles.  A session issues each request at most once, so one
    reply per request describes the service.  The theorems quantify over all
    services. *)

Inductive PageEvent := Crash | Close | Dialog.

Definition PageEvent_eqb (a b : PageEvent) : bool :=
  match a, b with
  | Crash, Crash | Close, Close | Dialog, Dialog => true
  | _, _ => false
  end.

(** An emitted event, with what [page.url()] answers when its listener runs. *)
Record Emitted := mkEmitted { event : PageEvent; url_then : string }.

Record Reply (A : Type) := mkReply {
  emitted : list Emitted;
  settled : JsError + A
}.
Arguments mkReply {A} _ _.
Arguments emitted {A} _.
Arguments settled {A} _.

Definition resolves {A} (a : A) : Reply A := mkReply [] (inr a).
Definition rejects {A} (msg : string) : Reply A := mkReply [] (inl (mkError msg)).

Module Response.
Record t := mk { headers : gmap string string; status : Z }.
End Response.

(** The connection descriptor of [setupBrowser]: the URL
    [<endpoint>/<engine name>/playwright?launch=<JSON of the launch options>],
    kept as its three parts. *)
Record Descriptor := mkDescriptor {
  endpoint : string;
  engine : string;
  launch : LaunchOptions.t
}.

Record Service := mkService {
  connect : Descriptor -> Reply unit;
  newContext : LaunchOptions.t -> Reply unit;
  newPage : Reply unit;
  route : string -> list string -> Reply unit;
  goto : string -> PlaywrightLoadEvents -> Reply (option Response.t);
  waitForTimeout : Q -> Reply unit;
  waitForSelector : string -> Reply unit;
  evaluate : string -> Reply JsValue;
  (** the buffer of [page.screenshot], already in base64 *)
  page_screenshot : bool -> Q -> Reply string;
  content : Reply string;
  context_cookies : Reply (list Cookie.t);
  unroute : string -> Reply unit;
  page_close : Reply unit;
  context_close : Reply unit;
  browser_close : Reply unit;
  (** [page.url()] at capture and [browser.isConnected()] at teardown *)
  final_url : string;
  isConnected : bool
}.

(** [Scraper.blockResources]: the decision the interception rule takes for a
    sub-request of a given resource type. *)
Inductive RouteDecision := RouteAbort | RouteContinue.

Definition blockResources (resourceType : string) (resources : list string)
  : RouteDecision :=
  if existsb (String.eqb resourceType) resources then RouteAbort
  else RouteContinue.

(** What the orchestrator does to its collaborators, in order. *)
Inductive Call :=
| CConnect (d : Descriptor)
| CNewContext (o : LaunchOptions.t)
| CNewPage
| CRoute (pattern : string) (resources : list string)
| CSetDefaultTimeout (ms : Q)
| COn (ev : PageEvent)
| COff (ev : PageEvent)
| CGoto (target : string) (waitUntil : PlaywrightLoadEvents)
| CWaitForTimeout (ms : Q)
| CWaitForSelector (css : string)
| CEvaluate (script : string)
| CScreenshot (fullPage : bool) (timeout : Q)
| CContent
| CCookies
| CDialogDismiss
| CUnroute (pattern : string)
| CPageClose
| CContextClose
| CRemoveAllListeners
| CBrowserClose.

Inductive ConsoleLine :=
| ConsoleError (text : string)
| ConsoleWarn (text : string)
| ConsoleErrorObject (e : JsError).

(** Handles of the three remote resources. *)
Inductive Browser := TheBrowser.
Inductive BrowserContext := TheContext.
Inductive Page := ThePage.

Module Scraper.
(** The fields of the class. *)
Record t := mk {
  _CONFIG : IScraperConfig.t;
  launchOptions : LaunchOptions.t;
  _timeout : Q;
  context : option BrowserContext;
  browser : option Browser;
  page : option Page
}.

Definition set_context (v : BrowserContext) (s : t) : t :=
  mk (_CONFIG s) (launchOptions s) (_timeout s) (Some v) (browser s) (page s).
Definition set_browser (v : Browser) (s : t) : t :=
  mk (_CONFIG s) (launchOptions s) (_timeout s) (context s) (Some v) (page s).
Definition set_page (v : Page) (s : t) : t :=
  mk (_CONFIG s) (launchOptions s) (_timeout s) (context s) (browser s) (Some v).

(** The getter [timeout]. *)
Definition timeout (s : t) : Q :=
  default (_timeout s) (IScraperConfig.timeout (_CONFIG s)).
End Scraper.

(** The machine a session runs on: the instance, the calls made so far, the
    console, the listeners installed on the page, and the errors thrown by
    listeners.  A listener is called by the emitter of the event, so what it
    throws goes to that emitter and not to the awaiting [scrape]. *)
Record Machine := mkMachine {
  this : Scraper.t;
  calls : list Call;
  console : list ConsoleLine;
  listeners : list PageEvent;
  thrown_to_emitter : list JsError
}.

Definition with_this (f : Scraper.t -> Scraper.t) (m : Machine) : Machine :=
  mkMachine (f (this m)) (calls m) (console m) (listeners m) (thrown_to_emitter m).
Definition record (c : Call) (m : Machine) : Machine :=
  mkMachine (this m) (calls m ++ [c]) (console m) (listeners m) (thrown_to_emitter m).
Definition print (l : ConsoleLine) (m : Machine) : Machine :=
  mkMachine (this m) (calls m) (console m ++ [l]) (listeners m) (thrown_to_emitter m).
Definition with_listeners (f : list PageEvent -> list PageEvent) (m : Machine)
  : Machine :=
  mkMachine (this m) (calls m) (console m) (f (listeners m)) (thrown_to_emitter m).
Definition throw_to_emitter (e : JsError) (m : Machine) : Machine :=
  mkMachine (this m) (calls m) (console m) (listeners m) (thrown_to_emitter m ++ [e]).

Definition listening (ev : PageEvent) (m : Machine) : bool :=
  existsb (PageEvent_eqb ev) (listeners m).

(** ** Completions and the session monad *)

Inductive Completion (A : Type) :=
| Normal (a : A)
| Throw (e : JsError).
Arguments Normal {A} _.
Arguments Throw {A} _.

Definition M (A : Type) : Type := Machine -> Completion A * Machine.

Definition ret {A} (a : A) : M A := fun m => (Normal a, m).
Definition throw {A} (e : JsError) : M A := fun m => (Throw e, m).
Definition bind {A B} (x : M A) (k : A -> M B) : M B :=
  fun m =>
    match x m with
    | (Normal a, m') => k a m'
    | (Throw e, m') => (Throw e, m')
    end.
Definition get_this : M Scraper.t := fun m => (Normal (this m), m).
Definition modify (f : Machine -> Machine) : M unit := fun m => (Normal tt, f m).

Declare Scope session_scope.
Delimit Scope session_scope with session.
Notation "'let*' x ':=' a 'in' b" := (bind a (fun x => b))
  (at level 10, x name, a at level 100, b at level 200) : session_scope.
Notation "a '>>' b" := (bind a (fun _ => b))
  (at level 90, right associativity) : session_scope.

(** [try { x } catch (e) { h e }] *)
Definition try_catch {A} (x : M A) (h : JsError -> M A) : M A :=
  fun m =>
    match x m with
    | (Normal a, m') => (Normal a, m')
    | (Throw e, m') => h e m'
    end.

(** [try { x } finally { f }]: the completion of [x] stands unless [f]
    itself completes abruptly. *)
Definition try_finally {A} (x : M A) (f : M unit) : M A :=
  fun m =>
    let (c, m') := x m in
    match f m' with
    | (Normal _, m'') => (c, m'')
    | (Throw e, m'') => (Throw e, m'')
    end.

(** ** The session orchestrator ([Scraper]) *)

Local Open Scope session_scope.

(** [new Scraper(config)]: the field initialisers, then [setupLaunchOptions]. *)
Definition new_Scraper (env : gmap string string) (config : IScraperConfig.t)
  : Scraper.t :=
  Scraper.mk config (setupLaunchOptions env config launchOptions) 60000
    None None None.

Definition boot (s : Scraper.t) : Machine := mkMachine s [] [] [] [].

Section Orchestrator.
Variable env : gmap string string.
Variable svc : Service.

(** The three listeners declared at the top of [scrape].  [this.page] is
    read when the listener runs. *)
Definition shown_url (m : Machine) (ev : Emitted) : string :=
  match Scraper.page (this m) with
  | Some _ => url_then ev
  | None => "unknown"
  end.

Definition crash (ev : Emitted) (m : Machine) : Machine :=
  throw_to_emitter (mkError "Page crashed")
    (print (ConsoleError ("Page crashed on " ++ shown_url m ev)) m).

Definition close (ev : Emitted) (m : Machine) : Machine :=
  print (ConsoleWarn ("Page closed on " ++ shown_url m ev)) m.

Definition dialog (m : Machine) : Machine := record CDialogDismiss m.

(** The page's emitter calls the listener registered for the event. *)
Definition deliver (m : Machine) (ev : Emitted) : Machine :=
  if listening (event ev) m then
    match event ev with
    | Crash => crash ev m
    | Close => close ev m
    | Dialog => dialog m
    end
  else m.

(** [await request]: the request goes out, the events emitted while it is
    pending are delivered, then it settles. *)
Definition await {A} (c : Call) (r : Reply A) : M A :=
  fun m =>
    let m' := fold_left deliver (emitted r) (record c m) in
    match settled r with
    | inl e => (Throw e, m')
    | inr a => (Normal a, m')
    end.

(** A synchronous call on a handle. *)
Definition call (c : Call) : M unit := modify (record c).

(** [p.catch((e) => { console.error(e) })] *)
Definition catch_log (x : M unit) : M unit :=
  try_catch x (fun e => modify (print (ConsoleErrorObject e))).

Definition setupBrowser : M Browser :=
  let* s := get_this in
  let browser := getBrowser (IScraperConfig.browser_type (Scraper._CONFIG s)) in
  let d := mkDescriptor
             (default "ws://127.0.0.1" (env !! "BROWSER_WS_ENDPOINT"))
             (engine_name browser) (Scraper.launchOptions s) in
  await (CConnect d) (connect svc d) >> ret TheBrowser.

Definition setupContext : M BrowserContext :=
  let* s := get_this in
  match Scraper.browser s with
  | None => throw (mkError "Browser is not initialized")
  | Some _ =>
      await (CNewContext (Scraper.launchOptions s))
            (newContext svc (Scraper.launchOptions s))
      >> ret TheContext
  end.

Definition setupPage : M Page :=
  let* s := get_this in
  match Scraper.context s with
  | None => throw (mkError "Context is not initialized")
  | Some _ =>
      await CNewPage (newPage svc) >>
      match IScraperConfig.block_resources (Scraper._CONFIG s) with
      | Some b =>
          if truthy_string b then
            let resources := split_comma b in
            await (CRoute "**/*" resources) (route svc "**/*" resources)
          else ret tt
      | None => ret tt
      end >>
      call (CSetDefaultTimeout (Scraper.timeout s)) >>
      ret ThePage
  end.

Definition cleanup : M unit :=
  let* s := get_this in
  match Scraper.page s with
  | Some _ =>
      catch_log (await (CUnroute "**/*") (unroute svc "**/*")) >>
      catch_log (await CPageClose (page_close svc))
  | None => ret tt
  end >>
  match Scraper.context s with
  | Some _ => catch_log (await CContextClose (context_close svc))
  | None => ret tt
  end >>
  match Scraper.browser s with
  | Some _ =>
      if isConnected svc then
        call CRemoveAllListeners >>
        catch_log (await CBrowserClose (browser_close svc))
      else ret tt
  | None => ret tt
  end.

Definition page_on (ev : PageEvent) : M unit :=
  modify (fun m => with_listeners (fun l => l ++ [ev]) (record (COn ev) m)).

Definition page_off (ev : PageEvent) : M unit :=
  modify (fun m =>
    with_listeners (List.filter (fun x => negb (PageEvent_eqb ev x)))
      (record (COff ev) m)).

(** The [try] block of [scrape]. *)
Definition scrape_try : M IScraperResult.t :=
  let* s := get_this in
  let cfg := Scraper._CONFIG s in
  let result := IScraperResult.empty in
  let URL :=
    match IScraperConfig.view_source cfg with
    | Some v =>
        if parseBool (Some v)
        then ("view-source:" ++ IScraperConfig.url cfg)%string
        else IScraperConfig.url cfg
    | None => IScraperConfig.url cfg
    end in
  let* b := setupBrowser in
  modify (with_this (Scraper.set_browser b)) >>
  let* c := setupContext in
  modify (with_this (Scraper.set_context c)) >>
  let* p := setupPage in
  modify (with_this (Scraper.set_page p)) >>
  page_on Crash >>
  page_on Close >>
  page_on Dialog >>
  let waitUntil := default domcontentloaded (IScraperConfig.wait_until cfg) in
  let* res := await (CGoto URL waitUntil) (goto svc URL waitUntil) in
  let result :=
    IScraperResult.set_headers
      (match res with Some r => Response.headers r | None => ∅ end) result in
  match IScraperConfig.wait_for cfg with
  | Some w =>
      if truthy_number w
      then await (CWaitForTimeout w) (waitForTimeout svc w) else ret tt
  | None => ret tt
  end >>
  match IScraperConfig.wait_for_css cfg with
  | Some css =>
      if truthy_string css
      then await (CWaitForSelector css) (waitForSelector svc css) else ret tt
  | None => ret tt
  end >>
  let* result :=
    match IScraperConfig.eval_js cfg with
    | Some js =>
        match decodeURIComponent js with
        | inl e => throw e
        | inr script =>
            let* evaluate := await (CEvaluate script) (evaluate svc script) in
            ret (IScraperResult.set_eval_result evaluate result)
        end
    | None => ret result
    end in
  let* result :=
    match IScraperConfig.screenshot cfg with
    | Some v =>
        if truthy_StringBoolean v then
          let t := (Scraper.timeout s / 2)%Q in
          let* screenshot_buff :=
            await (CScreenshot true t) (page_screenshot svc true t) in
          ret (IScraperResult.set_screenshot screenshot_buff result)
        else ret result
    | None => ret result
    end in
  let result := IScraperResult.set_url (final_url svc) result in
  let* body := await CContent (content svc) in
  let result := IScraperResult.set_body body result in
  let result :=
    IScraperResult.set_status_code
      (match res with Some r => Response.status r | None => 0%Z end) result in
  let* cookies := await CCookies (context_cookies svc) in
  ret (IScraperResult.set_cookies cookies result).

(** The [catch] clause of [scrape]. *)
Definition scrape_catch (e : JsError) : M IScraperResult.t :=
  let* s := get_this in
  ret (IScraperResult.mk
         (Some (IScraperConfig.url (Scraper._CONFIG s)))
         (Some 500%Z) None (Some (message e)) None None None None).

(** The [finally] clause of [scrape]. *)
Definition scrape_finally : M unit :=
  try_catch
    (let* s := get_this in
     match Scraper.page s with
     | Some _ => page_off Crash >> page_off Close >> page_off Dialog
     | None => ret tt
     end >>
     cleanup)
    (fun e => modify (print (ConsoleErrorObject e))).

Definition scrape : M IScraperResult.t :=
  try_finally (try_catch scrape_try scrape_catch) scrape_finally.

Definition run : M IScraperResult.t :=
  let res := IScraperResult.empty in
  let* res :=
    try_catch scrape
      (fun e =>
         let* s := get_this in
         let res :=
           IScraperResult.set_url
             (IScraperConfig.url (Scraper._CONFIG s)) res in
         let res := IScraperResult.set_error (message e) res in
         let res := IScraperResult.set_status_code 500 res in
         ret res) in
  ret res.
End Orchestrator.

(** One session: [new Scraper(config).run()]. *)
Definition session (env : gmap string string) (svc : Service)
    (config : IScraperConfig.t) : Completion IScraperResult.t * Machine :=
  run env svc (boot (new_Scraper env config)).

(** ** Sample inputs *)

(** A configuration with only the two mandatory fields. *)
Definition bare_config (url : string) (p : ProxyType.t) : IScraperConfig.t :=
  IScraperConfig.mk url p None None None None None None None None None None
    None None.

Definition with_browser (b : BrowserTypes) (c : IScraperConfig.t)
  : IScraperConfig.t :=
  IScraperConfig.mk (IScraperConfig.url c) (IScraperConfig.proxy_type c)
    (IScraperConfig.eval_js c) (Some b) (IScraperConfig.headless c)
    (IScraperConfig.block_ads c) (IScraperConfig.stealth c)
    (IScraperConfig.timeout c) (IScraperConfig.block_resources c)
    (IScraperConfig.wait_until c) (IScraperConfig.view_source c)
    (IScraperConfig.screenshot c) (IScraperConfig.wait_for_css c)
    (IScraperConfig.wait_for c).

Definition with_flags (headless block_ads stealth : option StringBoolean)
    (c : IScraperConfig.t) : IScraperConfig.t :=
  IScraperConfig.mk (IScraperConfig.url c) (IScraperConfig.proxy_type c)
    (IScraperConfig.eval_js c) (IScraperConfig.browser_type c) headless
    block_ads stealth
    (IScraperConfig.timeout c) (IScraperConfig.block_resources c)
    (IScraperConfig.wait_until c) (IScraperConfig.view_source c)
    (IScraperConfig.screenshot c) (IScraperConfig.wait_for_css c)
    (IScraperConfig.wait_for c).

Definition datacenter_env : gmap string string :=
  {[ "PROXY_DATACENTER_SERVER" := "http://dc.example:3128";
     "PROXY_DATACENTER_USERNAME" := "scraper" ]}.

(** ** Specifications: the launch parameter builder *)

(** The upper-cased name of each proxy type, written out. *)
Definition upper_name (p : ProxyType.t) : string :=
  match p with
  | ProxyType.None => "NONE"
  | ProxyType.IPv6 => "IPV6"
  | ProxyType.Mobile => "MOBILE"
  | ProxyType.Residential => "RESIDENTIAL"
  | ProxyType.Datacenter => "DATACENTER"
  | ProxyType.Custom => "CUSTOM"
  end.

(** The proxy object read from the four environment keys of a proxy type. *)
Definition proxy_from_env (env : gmap string string) (p : ProxyType.t)
  : IProxyConfig.t :=
  IProxyConfig.mk
    (default "" (env !! ("PROXY_" ++ upper_name p ++ "_SERVER")%string))
    (Some (default "" (env !! ("PROXY_" ++ upper_name p ++ "_BYPASS")%string)))
    (Some (default "" (env !! ("PROXY_" ++ upper_name p ++ "_USERNAME")%string)))
    (Some (default "" (env !! ("PROXY_" ++ upper_name p ++ "_PASSWORD")%string))).

Definition launch_of (env : gmap string string) (cfg : IScraperConfig.t)
  : LaunchOptions.t :=
  Scraper.launchOptions (new_Scraper env cfg).

(** The statement of C4 read literally: whatever the family, a proxy type
    other than "none" yields the proxy object of its environment keys. *)
Definition proxy_attached_for_every_family : Prop :=
  forall env cfg,
    IScraperConfig.proxy_type cfg <> ProxyType.None ->
    LaunchOptions.proxy (launch_of env cfg)
    = Some (proxy_from_env env (IScraperConfig.proxy_type cfg)).

(** A configuration that asks for stealth and ad-block and names no family. *)
Definition flags_without_family : IScraperConfig.t :=
  with_flags None (Some (SBString "true")) (Some (SBString "true"))
    (bare_config "https://example.com" ProxyType.None).

(** ** Specifications: judgements on sessions *)

(** A weakest precondition for the session monad. *)

Definition wp {A} (x : M A) (Qn : A -> Machine -> Prop)
    (Qt : JsError -> Machine -> Prop) (m : Machine) : Prop :=
  match x m with
  | (Normal a, m') => Qn a m'
  | (Throw e, m') => Qt e m'
  end.

(** A relation every step of a computation preserves. *)

Definition keeps {A} (R : Machine -> Machine -> Prop) (x : M A) : Prop :=
  forall m, R m (snd (x m)).

(** The configuration of the instance is never written. *)
Definition same_config (m m' : Machine) : Prop :=
  Scraper._CONFIG (this m') = Scraper._CONFIG (this m).

(** ** Sample services *)

Definition html_response : Response.t :=
  Response.mk {[ "content-type" := "text/html" ]} 200.

(** A service on which every request resolves. *)
Definition obliging (res : option Response.t) : Service :=
  mkService
    (fun _ => resolves tt) (fun _ => resolves tt) (resolves tt)
    (fun _ _ => resolves tt)
    (fun _ _ => resolves res)
    (fun _ => resolves tt) (fun _ => resolves tt)
    (fun _ => resolves (JsNumber 2))
    (fun _ _ => resolves "aGVsbG8=")
    (resolves "<html><body>hello</body></html>")
    (resolves [])
    (fun _ => resolves tt) (resolves tt) (resolves tt) (resolves tt)
    "https://example.com/" true.


Definition with_goto
    (f : string -> PlaywrightLoadEvents -> Reply (option Response.t))
    (s : Service) : Service :=
  mkService (connect s) (newContext s) (newPage s) (route s) f
    (waitForTimeout s) (waitForSelector s) (evaluate s) (page_screenshot s)
    (content s) (context_cookies s) (unroute s) (page_close s)
    (context_close s) (browser_close s) (final_url s) (isConnected s).



Definition with_closing (u p c b : Reply unit) (connected : bool) (s : Service)
  : Service :=
  mkService (connect s) (newContext s) (newPage s) (route s) (goto s)
    (waitForTimeout s) (waitForSelector s) (evaluate s) (page_screenshot s)
    (content s) (context_cookies s) (fun _ => u) p c b (final_url s) connected.

(** A configuration that uses every optional step. *)
Definition full_config : IScraperConfig.t :=
  IScraperConfig.mk "https://example.com" ProxyType.None (Some "1%2B1")
    (Some "chromium") None None None (Some 30001%Q) (Some "image,media") None
    None (Some (SBString "true")) (Some "#main") (Some 250%Q).

Definition script_config (js : string) : IScraperConfig.t :=
  IScraperConfig.mk "https://example.com" ProxyType.None (Some js)
    None None None None None None None None None None None.




(** ** Specifications: navigation without a response *)

Definition resolved {A} (r : Reply A) : Prop := exists a, settled r = inr a.

(** Every request of the [try] block other than the navigation resolves. *)
Record cooperative (svc : Service) : Prop := mkCooperative {
  coop_connect : forall d, resolved (connect svc d);
  coop_newContext : forall o, resolved (newContext svc o);
  coop_newPage : resolved (newPage svc);
  coop_route : forall p rs, resolved (route svc p rs);
  coop_waitForTimeout : forall ms, resolved (waitForTimeout svc ms);
  coop_waitForSelector : forall css, resolved (waitForSelector svc css);
  coop_evaluate : forall js, resolved (evaluate svc js);
  coop_screenshot : forall f t, resolved (page_screenshot svc f t);
  coop_content : resolved (content svc);
  coop_cookies : resolved (context_cookies svc)
}.

Definition script_decodes (cfg : IScraperConfig.t) : Prop :=
  forall js, IScraperConfig.eval_js cfg = Some js ->
             exists script, decodeURIComponent js = inr script.

(** ** Specifications: the order of the page steps *)

(** The steps made on the page between its set-up and its teardown. *)
Definition is_page_step (c : Call) : bool :=
  match c with
  | CGoto _ _ | CWaitForTimeout _ | CWaitForSelector _ | CEvaluate _
  | CScreenshot _ _ | CContent | CCookies => true
  | _ => false
  end.

Definition page_steps_of (m : Machine) : list Call :=
  List.filter is_page_step (calls m).

(** [appends x seg]: whatever its completion, [x] makes the page steps [seg]. *)
Definition appends {A} (x : M A) (seg : list Call) : Prop :=
  forall m, page_steps_of (snd (x m)) = page_steps_of m ++ seg.

(** [emits x l m]: from [m], [x] makes a prefix of the page steps [l], and all
    of them when it returns. *)
Definition emits {A} (x : M A) (l : list Call) (m : Machine) : Prop :=
  exists l',
    page_steps_of (snd (x m)) = page_steps_of m ++ l'
    /\ l' `prefix_of` l
    /\ (forall a, fst (x m) = Normal a -> l' = l).

(** The page steps a configuration asks for, in the order of the claim; [t]
    is the effective timeout. *)
Definition navigation (cfg : IScraperConfig.t) : Call :=
  CGoto
    (match IScraperConfig.view_source cfg with
     | Some v =>
         if parseBool (Some v)
         then ("view-source:" ++ IScraperConfig.url cfg)%string
         else IScraperConfig.url cfg
     | None => IScraperConfig.url cfg
     end)
    (default domcontentloaded (IScraperConfig.wait_until cfg)).

Definition fixed_wait (cfg : IScraperConfig.t) : list Call :=
  match IScraperConfig.wait_for cfg with
  | Some w => if truthy_number w then [CWaitForTimeout w] else []
  | None => []
  end.

Definition selector_wait (cfg : IScraperConfig.t) : list Call :=
  match IScraperConfig.wait_for_css cfg with
  | Some css => if truthy_string css then [CWaitForSelector css] else []
  | None => []
  end.

Definition script_evaluation (cfg : IScraperConfig.t) : list Call :=
  match IScraperConfig.eval_js cfg with
  | Some js =>
      match decodeURIComponent js with
      | inr script => [CEvaluate script]
      | inl _ => []
      end
  | None => []
  end.

Definition full_page_screenshot (cfg : IScraperConfig.t) (t : Q) : list Call :=
  match IScraperConfig.screenshot cfg with
  | Some v => if truthy_StringBoolean v then [CScreenshot true (t / 2)%Q] else []
  | None => []
  end.

Definition page_steps (cfg : IScraperConfig.t) (t : Q) : list Call :=
  navigation cfg
  :: fixed_wait cfg ++ selector_wait cfg ++ script_evaluation cfg
     ++ full_page_screenshot cfg t ++ [CContent; CCookies].

(** The effective timeout: the configured one, or 60000 ms. *)
Definition effective_timeout (cfg : IScraperConfig.t) : Q :=
  match IScraperConfig.timeout cfg with
  | Some t => t
  | None => 60000%Q
  end.

(** ** Specifications: teardown *)

(** What stays in place while a request is pending. *)
Definition same_frame (m m' : Machine) : Prop :=
  this m' = this m /\ listeners m' = listeners m.

Definition same_this (m m' : Machine) : Prop := this m' = this m.

(** The handles a session holds form a chain: a page only with its context, a
    context only with its connection; without a page no listener is
    installed. *)
Definition chained (s : Scraper.t) : Prop :=
  (Scraper.page s <> None -> Scraper.context s <> None)
  /\ (Scraper.context s <> None -> Scraper.browser s <> None).

Definition held (m : Machine) : Prop :=
  chained (this m) /\ (Scraper.page (this m) = None -> listeners m = []).

(** The instance is [s] and no listener is installed. *)
Definition at_stage (s : Scraper.t) (m : Machine) : Prop :=
  this m = s /\ listeners m = [].

(** What a rejected closing request leaves on the console. *)
Definition rejection_log {A} (r : Reply A) : list ConsoleLine :=
  match settled r with
  | inl e => [ConsoleErrorObject e]
  | inr _ => []
  end.

(** The teardown of the claim, for the handles [s] holds: the listeners are
    unsubscribed, then the interception rule is removed, the page closed, the
    context closed, and the connection closed if it is still open. *)
Definition unsubscriptions (s : Scraper.t) : list Call :=
  match Scraper.page s with
  | Some _ => [COff Crash; COff Close; COff Dialog]
  | None => []
  end.

Definition closing_calls (svc : Service) (s : Scraper.t) : list Call :=
  match Scraper.page s with
  | Some _ => [CUnroute "**/*"; CPageClose]
  | None => []
  end
  ++ match Scraper.context s with
     | Some _ => [CContextClose]
     | None => []
     end
  ++ match Scraper.browser s with
     | Some _ =>
         if isConnected svc then [CRemoveAllListeners; CBrowserClose] else []
     | None => []
     end.

Definition closing_log (svc : Service) (s : Scraper.t) : list ConsoleLine :=
  match Scraper.page s with
  | Some _ => rejection_log (unroute svc "**/*") ++ rejection_log (page_close svc)
  | None => []
  end
  ++ match Scraper.context s with
     | Some _ => rejection_log (context_close svc)
     | None => []
     end
  ++ match Scraper.browser s with
     | Some _ =>
         if isConnected svc then rejection_log (browser_close svc) else []
     | None => []
     end.

Definition teardown_calls (svc : Service) (s : Scraper.t) : list Call :=
  unsubscriptions s ++ closing_calls svc s.

(** [m] after more calls and console lines, with no listener left. *)
Definition extended (m : Machine) (cs : list Call) (ls : list ConsoleLine)
  : Machine :=
  mkMachine (this m) (calls m ++ cs) (console m ++ ls) [] (thrown_to_emitter m).

(** [effect x cs ls]: on a machine without listeners, [x] returns after the
    calls [cs] and the console lines [ls]. *)
Definition effect (x : M unit) (cs : list Call) (ls : list ConsoleLine)
  : Prop :=
  forall m, listeners m = [] -> x m = (Normal tt, extended m cs ls).

(** A session whose navigation times out, on a service that rejects the
    removal of the interception rule and the closing of the context. *)
Definition stubborn : Service :=
  with_closing (rejects "unroute failed") (resolves tt)
    (rejects "context already closed") (resolves tt) true
    (with_goto (fun _ _ => rejects "Timeout 60000ms exceeded")
       (obliging None)).

(** ** Specifications: the close listener *)








(** ** The resource interceptor ([Scraper.blockResources]) *)

(** The route handed to the interception rule: the resource type of its
    request and the way its two answers settle. *)
Module Route.
Record t := mk {
  resourceType : string;
  abort : Reply unit;
  continue : Reply unit
}.
End Route.

(** What handling one route leaves behind: the answers given to the route, in
    order, and the console lines. *)
Record Handled := mkHandled {
  answers : list RouteDecision;
  printed : list ConsoleLine
}.

(** [blockResources(route, resources)]: the [try] block awaits [abort] or
    [continue]; the [catch] clause prints what was thrown. *)
Definition blockResources_route (route : Route.t) (resources : list string)
  : Completion unit * Handled :=
  let attempt : Completion unit * Handled :=
    match blockResources (Route.resourceType route) resources with
    | RouteAbort =>
        (match settled (Route.abort route) with
         | inl e => Throw e
         | inr u => Normal u
         end, mkHandled [RouteAbort] [])
    | RouteContinue =>
        (match settled (Route.continue route) with
         | inl e => Throw e
         | inr u => Normal u
         end, mkHandled [RouteContinue] [])
    end in
  match attempt with
  | (Normal u, h) => (Normal u, h)
  | (Throw e, h) =>
      (Normal tt, mkHandled (answers h) (printed h ++ [ConsoleErrorObject e]))
  end.

(** [items.join(",")]. *)
Fixpoint join_comma (items : list string) : string :=
  match items with
  | [] => ""
  | [x] => x
  | x :: rest => x ++ "," ++ join_comma rest
  end.

(** No comma occurs in [s]. *)
Fixpoint comma_free (s : string) : bool :=
  match s with
  | EmptyString => true
  | String c r => negb (Ascii.eqb c ","%char) && comma_free r
  end.

(** ** Percent-encoding, the inverse of [decodeURIComponent] on ASCII text *)

Fixpoint percent_free (s : string) : bool :=
  match s with
  | EmptyString => true
  | String c r => negb (Ascii.eqb c "%"%char) && percent_free r
  end.

Fixpoint ascii_text (s : string) : bool :=
  match s with
  | EmptyString => true
  | String c r => (Ascii.N_of_ascii c <? 128)%N && ascii_text r
  end.

Definition hex_char (n : N) : Ascii.ascii :=
  if (n <? 10)%N then Ascii.ascii_of_N (48 + n) else Ascii.ascii_of_N (55 + n).

(** Every byte written as [%XY]. *)
Fixpoint percent_encode (s : string) : string :=
  match s with
  | EmptyString => EmptyString
  | String c r =>
      String "%" (String (hex_char (Ascii.N_of_ascii c / 16))
                    (String (hex_char (Ascii.N_of_ascii c mod 16))
                       (percent_encode r)))
  end.

(** ** Specifications: the success envelope *)

Definition captured_headers (res : option Response.t) : gmap string string :=
  match res with
  | Some r => Response.headers r
  | None => ∅
  end.

Definition captured_status (res : option Response.t) : Z :=
  match res with
  | Some r => Response.status r
  | None => 0%Z
  end.

(** The value the service gives for the decoded script, if a script is
    configured. *)
Definition evaluated (svc : Service) (cfg : IScraperConfig.t) : option JsValue :=
  match IScraperConfig.eval_js cfg with
  | Some js =>
      match decodeURIComponent js with
      | inr script =>
          match settled (evaluate svc script) with
          | inr v => Some v
          | inl _ => None
          end
      | inl _ => None
      end
  | None => None
  end.

(** The image the service gives, if the [screenshot] field is truthy. *)
Definition pictured (svc : Service) (cfg : IScraperConfig.t) : option string :=
  match IScraperConfig.screenshot cfg with
  | Some v =>
      if truthy_StringBoolean v then
        match settled (page_screenshot svc true (effective_timeout cfg / 2)%Q) with
        | inr b => Some b
        | inl _ => None
        end
      else None
  | None => None
  end.

(** The failure envelope of a configuration for a message. *)
Definition failure_of (cfg : IScraperConfig.t) (msg : string) : IScraperResult.t :=
  IScraperResult.mk (Some (IScraperConfig.url cfg)) (Some 500%Z) None (Some msg)
    None None None None.

(** A configuration whose [screenshot] field is the string "false". *)
Definition screenshot_false : IScraperConfig.t :=
  IScraperConfig.mk "https://example.com" ProxyType.None None None None None
    None None None None None (Some (SBString "false")) None None.

(** ** Specifications: where the errors of a session come from *)


(** ** Specifications: the requests of a whole session *)

(** The calls the orchestrator makes itself; the dismissal of a dialog is
    made by a listener. *)
Definition is_request (c : Call) : bool :=
  match c with
  | CDialogDismiss => false
  | _ => true
  end.

Definition requests_of (m : Machine) : list Call :=
  List.filter is_request (calls m).

(** The fields of the instance that are set by the constructor. *)
Definition static_of (s : Scraper.t)
  : IScraperConfig.t * LaunchOptions.t * Q :=
  (Scraper._CONFIG s, Scraper.launchOptions s, Scraper._timeout s).

(** [traces s0 x l]: on an instance built like [s0], [x] leaves the
    constructor's fields alone and makes a prefix of the requests [l], all of
    them when it returns. *)
Definition traces (s0 : Scraper.t) {A} (x : M A) (l : list Call) : Prop :=
  forall m,
    static_of (this m) = static_of s0 ->
    static_of (this (snd (x m))) = static_of s0
    /\ exists l',
         requests_of (snd (x m)) = requests_of m ++ l'
         /\ l' `prefix_of` l
         /\ (forall a, fst (x m) = Normal a -> l' = l).

(** The connection descriptor of a configuration. *)
Definition descriptor_of (env : gmap string string) (cfg : IScraperConfig.t)
  : Descriptor :=
  mkDescriptor
    (default "ws://127.0.0.1" (env !! "BROWSER_WS_ENDPOINT"))
    (engine_name (getBrowser (IScraperConfig.browser_type cfg)))
    (launch_of env cfg).

(** The interception rule, installed for a non-empty block list. *)
Definition interception (cfg : IScraperConfig.t) : list Call :=
  match IScraperConfig.block_resources cfg with
  | Some b => if truthy_string b then [CRoute "**/*" (split_comma b)] else []
  | None => []
  end.

(** The requests of the [try] block, in order. *)
Definition try_steps (env : gmap string string) (cfg : IScraperConfig.t)
  : list Call :=
  CConnect (descriptor_of env cfg)
  :: CNewContext (launch_of env cfg)
  :: CNewPage
  :: interception cfg
     ++ CSetDefaultTimeout (effective_timeout cfg)
        :: COn Crash :: COn Close :: COn Dialog
        :: page_steps cfg (effective_timeout cfg).

(** The teardown of a session that holds its three handles. *)
Definition full_teardown (svc : Service) : list Call :=
  [COff Crash; COff Close; COff Dialog; CUnroute "**/*"; CPageClose;
   CContextClose]
  ++ (if isConnected svc then [CRemoveAllListeners; CBrowserClose] else []).

(** The requests made so far are kept. *)
Definition grows (m m' : Machine) : Prop :=
  requests_of m `prefix_of` requests_of m'.

(** ** Specifications: the dialog listener *)

(** The dialogs dismissed so far. *)
Definition dismissals (m : Machine) : nat :=
  length (List.filter (fun c => negb (is_request c)) (calls m)).

(** The dialogs among emitted events. *)
Definition dialogs (evs : list Emitted) : nat :=
  length (List.filter (fun ev => PageEvent_eqb Dialog (event ev)) evs).

(** The events the service emits while a page step is pending. *)
Definition pending_events (svc : Service) (c : Call) : list Emitted :=
  match c with
  | CGoto u w => emitted (goto svc u w)
  | CWaitForTimeout ms => emitted (waitForTimeout svc ms)
  | CWaitForSelector css => emitted (waitForSelector svc css)
  | CEvaluate script => emitted (evaluate svc script)
  | CScreenshot f t => emitted (page_screenshot svc f t)
  | CContent => emitted (content svc)
  | CCookies => emitted (context_cookies svc)
  | _ => []
  end.

Definition dialogs_during (svc : Service) (steps : list Call) : nat :=
  list_sum (map (fun c => dialogs (pending_events svc c)) steps).

(** Every dialog raised during a page step made so far has been dismissed,
    and nothing else has. *)
Definition dismissed_all (svc : Service) (m : Machine) : Prop :=
  dismissals m = dialogs_during svc (page_steps_of m).

(** Before the listeners are installed: no listener, the invariant. *)
Definition quiet (svc : Service) (m : Machine) : Prop :=
  listeners m = [] /\ dismissed_all svc m.

(** While they are installed: the three listeners, the invariant. *)
Definition loud (svc : Service) (m : Machine) : Prop :=
  listeners m = [Crash; Close; Dialog] /\ dismissed_all svc m.

(** A service whose page raises two dialogs while it loads and one more while
    the context is being closed. *)
Definition alerting : Service :=
  with_closing (resolves tt) (resolves tt)
    (mkReply [mkEmitted Dialog "https://example.com/"] (inr tt)) (resolves tt)
    true
    (with_goto
       (fun _ _ =>
          mkReply [mkEmitted Dialog "about:blank";
                   mkEmitted Close "about:blank";
                   mkEmitted Dialog "https://example.com/"]
            (inr (Some html_response)))
       (obliging (Some html_response))).

(** * Properties *)

(** ** Built-ins *)

Example decodeURIComponent_plain :
  decodeURIComponent "1+1" = inr "1+1".
Proof. reflexivity. Qed.

Example decodeURIComponent_escapes :
  decodeURIComponent "document.title%3D%27a%20b%27%3B" = inr "document.title='a b';".
Proof. reflexivity. Qed.

Example decodeURIComponent_malformed :
  decodeURIComponent "100%" = inl (mkError "URI malformed")
  /\ decodeURIComponent "%E0%80%80" = inl (mkError "URI malformed").
Proof. split; reflexivity. Qed.

Example split_comma_two : split_comma "image,media" = ["image"; "media"].
Proof. reflexivity. Qed.

(** ** The launch parameter builder *)

Lemma toUpperCase_value (p : ProxyType.t) :
  toUpperCase (ProxyType.value p) = upper_name p.
Proof. destruct p; reflexivity. Qed.

Lemma resolveProxy_none env : resolveProxy env ProxyType.None = None.
Proof. reflexivity. Qed.

Lemma resolveProxy_other env p :
  p <> ProxyType.None -> resolveProxy env p = Some (proxy_from_env env p).
Proof.
  intros Hp. destruct p; try congruence; reflexivity.
Qed.

Lemma launch_of_unfold env cfg :
  launch_of env cfg = setupLaunchOptions env cfg launchOptions.
Proof. reflexivity. Qed.

(** The proxy survives the family switch for every family but webkit. *)
Lemma setupLaunchOptions_proxy env cfg :
  IScraperConfig.browser_type cfg <> Some "webkit" ->
  LaunchOptions.proxy (launch_of env cfg)
  = resolveProxy env (IScraperConfig.proxy_type cfg).
Proof.
  intros Hb. rewrite launch_of_unfold. unfold setupLaunchOptions.
  destruct (IScraperConfig.browser_type cfg) as [b|] eqn:E; [|reflexivity].
  destruct (String.eqb_spec b "webkit") as [->|_]; [now elim Hb|].
  destruct (b =? "firefox"); [reflexivity|].
  destruct (b =? "chromium"); reflexivity.
Qed.

(** C4, counterexample: with the webkit family and the datacenter proxy type,
    whose server key is set, the launch parameters carry no proxy object. *)
Lemma webkit_drops_configured_proxy : ~ proxy_attached_for_every_family.
Proof.
  intros H.
  specialize (H datacenter_env
                (with_browser "webkit"
                   (bare_config "https://example.com" ProxyType.Datacenter))).
  discriminate H. discriminate.
Qed.

(** C4, amended: the launch parameters carry no proxy object when the proxy
    type is "none"; for every other proxy type T and every browser family
    other than webkit they carry a proxy object whose server, username,
    password and bypass are the values of PROXY_<T upper-cased>_SERVER,
    _USERNAME, _PASSWORD and _BYPASS, the empty string for an unset key. *)
Theorem proxy_resolution env cfg :
  (IScraperConfig.proxy_type cfg = ProxyType.None ->
   LaunchOptions.proxy (launch_of env cfg) = None)
  /\ (IScraperConfig.proxy_type cfg <> ProxyType.None ->
      IScraperConfig.browser_type cfg <> Some "webkit" ->
      LaunchOptions.proxy (launch_of env cfg)
      = Some (proxy_from_env env (IScraperConfig.proxy_type cfg))).
Proof.
  split.
  - intros Hp. rewrite launch_of_unfold. unfold setupLaunchOptions.
    rewrite Hp, resolveProxy_none.
    destruct (IScraperConfig.browser_type cfg) as [b|]; [|reflexivity].
    destruct (b =? "webkit"); [reflexivity|].
    destruct (b =? "firefox"); [reflexivity|].
    destruct (b =? "chromium"); reflexivity.
  - intros Hp Hb. rewrite setupLaunchOptions_proxy by exact Hb.
    apply resolveProxy_other, Hp.
Qed.

Lemma proxy_resolution_witness :
  LaunchOptions.proxy
    (launch_of datacenter_env
       (with_browser "firefox"
          (bare_config "https://example.com" ProxyType.Datacenter)))
  = Some (IProxyConfig.mk "http://dc.example:3128" (Some "") (Some "scraper")
            (Some "")).
Proof.
  refine (eq_trans
            (proj2 (proxy_resolution datacenter_env
                      (with_browser "firefox"
                         (bare_config "https://example.com"
                            ProxyType.Datacenter))) _ _) _).
  - discriminate.
  - discriminate.
  - vm_compute. reflexivity.
Defined.

(** C5: for webkit the proxy object is absent whatever the proxy type and
    stealth and ad-block are not set; for firefox stealth and ad-block are not
    set; for chromium stealth and ad-block are set from the configuration's
    [stealth] and [block_ads].  Firefox and chromium keep the resolved proxy. *)
Theorem family_gating env cfg :
  (IScraperConfig.browser_type cfg = Some "webkit" ->
   LaunchOptions.proxy (launch_of env cfg) = None
   /\ LaunchOptions.stealth (launch_of env cfg) = None
   /\ LaunchOptions.blockAds (launch_of env cfg) = None)
  /\ (IScraperConfig.browser_type cfg = Some "firefox" ->
      LaunchOptions.proxy (launch_of env cfg)
      = resolveProxy env (IScraperConfig.proxy_type cfg)
      /\ LaunchOptions.stealth (launch_of env cfg) = None
      /\ LaunchOptions.blockAds (launch_of env cfg) = None)
  /\ (IScraperConfig.browser_type cfg = Some "chromium" ->
      LaunchOptions.proxy (launch_of env cfg)
      = resolveProxy env (IScraperConfig.proxy_type cfg)
      /\ LaunchOptions.stealth (launch_of env cfg)
         = Some (parseBool (IScraperConfig.stealth cfg))
      /\ LaunchOptions.blockAds (launch_of env cfg)
         = Some (parseBool (IScraperConfig.block_ads cfg))).
Proof.
  rewrite launch_of_unfold. unfold setupLaunchOptions.
  repeat split; rewrite H; reflexivity.
Qed.

Lemma family_gating_witness :
  LaunchOptions.proxy
    (launch_of datacenter_env
       (with_browser "webkit"
          (bare_config "https://example.com" ProxyType.Datacenter))) = None
  /\ LaunchOptions.stealth
       (launch_of datacenter_env
          (with_browser "chromium"
             (with_flags None None (Some (SBString "off"))
                (bare_config "https://example.com" ProxyType.None))))
     = Some false.
Proof.
  split.
  - apply (proj1 (family_gating datacenter_env
                    (with_browser "webkit"
                       (bare_config "https://example.com"
                          ProxyType.Datacenter)))).
    reflexivity.
  - apply (proj2 (proj2 (family_gating datacenter_env
                    (with_browser "chromium"
                       (with_flags None None (Some (SBString "off"))
                          (bare_config "https://example.com"
                             ProxyType.None)))))).
    reflexivity.
Defined.

(** The engine selection does fall back to chromium. *)
Lemma getBrowser_fallback (b : option BrowserTypes) :
  b <> Some "webkit" -> b <> Some "firefox" -> getBrowser b = chromium.
Proof.
  intros Hw Hf. destruct b as [b|]; [|reflexivity]. unfold getBrowser.
  destruct (String.eqb_spec b "webkit") as [->|_]; [now elim Hw|].
  destruct (String.eqb_spec b "firefox") as [->|_]; [now elim Hf|].
  reflexivity.
Qed.

(** The family switch of the builder sets nothing for an unlisted family. *)
Lemma setupLaunchOptions_unlisted env cfg :
  IScraperConfig.browser_type cfg <> Some "webkit" ->
  IScraperConfig.browser_type cfg <> Some "firefox" ->
  IScraperConfig.browser_type cfg <> Some "chromium" ->
  LaunchOptions.stealth (launch_of env cfg) = None
  /\ LaunchOptions.blockAds (launch_of env cfg) = None.
Proof.
  intros Hw Hf Hc. rewrite launch_of_unfold. unfold setupLaunchOptions.
  destruct (IScraperConfig.browser_type cfg) as [b|]; [|split; reflexivity].
  destruct (String.eqb_spec b "webkit") as [->|_]; [now elim Hw|].
  destruct (String.eqb_spec b "firefox") as [->|_]; [now elim Hf|].
  destruct (String.eqb_spec b "chromium") as [->|_]; [now elim Hc|].
  split; reflexivity.
Qed.

(** C6, the code at the failing input: with no family the engine is the
    chromium one, yet the launch parameters carry neither stealth nor
    ad-block, while the same configuration with the family "chromium" carries
    both. *)
Theorem absent_family_misses_chromium_gating :
  getBrowser (IScraperConfig.browser_type flags_without_family) = chromium
  /\ getBrowser (IScraperConfig.browser_type
                   (with_browser "chromium" flags_without_family)) = chromium
  /\ LaunchOptions.stealth (launch_of ∅ flags_without_family) = None
  /\ LaunchOptions.blockAds (launch_of ∅ flags_without_family) = None
  /\ LaunchOptions.stealth
       (launch_of ∅ (with_browser "chromium" flags_without_family)) = Some true
  /\ LaunchOptions.blockAds
       (launch_of ∅ (with_browser "chromium" flags_without_family)) = Some true.
Proof. repeat split; reflexivity. Qed.

(** C10: [parseBool] is true exactly on [undefined] and on the five strings
    "true", "1", "yes", "on", "enabled"; the boolean [true] parses to false;
    the headless launch flag is [parseBool] of the [headless] field, so it is
    true when the field is unset and false for the boolean [true]; with the
    chromium family an unset [stealth] or [block_ads] gives a set flag. *)
Theorem parseBool_exact env cfg :
  (forall v,
     parseBool v = true <->
     v = None
     \/ exists s, v = Some (SBString s)
        /\ (s = "true" \/ s = "1" \/ s = "yes" \/ s = "on" \/ s = "enabled"))
  /\ parseBool (Some (SBBool true)) = false
  /\ LaunchOptions.headless (launch_of env cfg)
     = parseBool (IScraperConfig.headless cfg)
  /\ LaunchOptions.headless
       (launch_of env (with_flags None (IScraperConfig.block_ads cfg)
                         (IScraperConfig.stealth cfg) cfg)) = true
  /\ LaunchOptions.headless
       (launch_of env (with_flags (Some (SBBool true))
                         (IScraperConfig.block_ads cfg)
                         (IScraperConfig.stealth cfg) cfg)) = false
  /\ LaunchOptions.stealth
       (launch_of env (with_browser "chromium"
                         (with_flags (IScraperConfig.headless cfg) None None cfg)))
     = Some true
  /\ LaunchOptions.blockAds
       (launch_of env (with_browser "chromium"
                         (with_flags (IScraperConfig.headless cfg) None None cfg)))
     = Some true.
Proof.
  assert (Hhead : forall c, LaunchOptions.headless (launch_of env c)
                            = parseBool (IScraperConfig.headless c)).
  { intros c. rewrite launch_of_unfold. unfold setupLaunchOptions.
    destruct (IScraperConfig.browser_type c) as [b|]; [|reflexivity].
    destruct (b =? "webkit"); [reflexivity|].
    destruct (b =? "firefox"); [reflexivity|].
    destruct (b =? "chromium"); reflexivity. }
  split; [|repeat split; try apply Hhead; try reflexivity].
  intros [[s|b]|]; simpl.
  - destruct (String.eqb_spec s "true") as [->|N1]; simpl.
    { split; [intros _; right; eauto 7|reflexivity]. }
    destruct (String.eqb_spec s "1") as [->|N2]; simpl.
    { split; [intros _; right; eauto 7|reflexivity]. }
    destruct (String.eqb_spec s "yes") as [->|N3]; simpl.
    { split; [intros _; right; eauto 7|reflexivity]. }
    destruct (String.eqb_spec s "on") as [->|N4]; simpl.
    { split; [intros _; right; eauto 7|reflexivity]. }
    destruct (String.eqb_spec s "enabled") as [->|N5]; simpl.
    { split; [intros _; right; eauto 8|reflexivity]. }
    split; [discriminate|].
    intros [H|(s' & H & Hs)]; [discriminate|].
    injection H as <-. destruct Hs as [?|[?|[?|[?|?]]]]; contradiction.
  - split; [discriminate|]. intros [H|(s & H & _)]; discriminate.
  - split; [intros _; left; reflexivity|reflexivity].
Qed.

Lemma parseBool_exact_witness :
  parseBool (Some (SBString "yes")) = true.
Proof.
  refine (proj2 (proj1 (parseBool_exact ∅
                          (bare_config "https://example.com" ProxyType.None))
                   (Some (SBString "yes"))) _).
  right. exists "yes". split; [reflexivity|]. right. right. left. reflexivity.
Defined.

(** ** Reasoning about sessions *)

(** *** What event delivery leaves alone *)

Section Delivery.
Lemma deliver_this m ev : this (deliver m ev) = this m.
Proof.
  unfold deliver. destruct (listening (event ev) m); [|reflexivity].
  destruct (event ev); reflexivity.
Qed.

Lemma deliver_listeners m ev : listeners (deliver m ev) = listeners m.
Proof.
  unfold deliver. destruct (listening (event ev) m); [|reflexivity].
  destruct (event ev); reflexivity.
Qed.

Lemma delivered_this evs m : this (fold_left deliver evs m) = this m.
Proof.
  revert m. induction evs as [|ev evs IH]; intros m; simpl; [reflexivity|].
  rewrite IH. apply deliver_this.
Qed.

Lemma delivered_listeners evs m :
  listeners (fold_left deliver evs m) = listeners m.
Proof.
  revert m. induction evs as [|ev evs IH]; intros m; simpl; [reflexivity|].
  rewrite IH. apply deliver_listeners.
Qed.

(** With no listener installed, events change nothing. *)
Lemma deliver_deaf m ev : listeners m = [] -> deliver m ev = m.
Proof. intros H. unfold deliver, listening. rewrite H. reflexivity. Qed.

Lemma delivered_deaf evs m :
  listeners m = [] -> fold_left deliver evs m = m.
Proof.
  induction evs as [|ev evs IH]; intros H; simpl; [reflexivity|].
  rewrite deliver_deaf by exact H. apply IH, H.
Qed.

(** The only call a listener makes is the dismissal of a dialog. *)
Lemma delivered_calls (P : Call -> bool) evs m :
  P CDialogDismiss = false ->
  List.filter P (calls (fold_left deliver evs m)) = List.filter P (calls m).
Proof.
  intros HP. revert m.
  induction evs as [|ev evs IH]; intros m; simpl; [reflexivity|].
  rewrite IH. unfold deliver.
  destruct (listening (event ev) m); [|reflexivity].
  destruct (event ev); simpl; try reflexivity.
  rewrite List.filter_app. simpl. rewrite HP. apply app_nil_r.
Qed.
End Delivery.

(** *** The weakest-precondition calculus *)

Section WP.
Context {A : Type}.
Variable Qn : A -> Machine -> Prop.
Variable Qt : JsError -> Machine -> Prop.

Lemma wp_ret a m : Qn a m -> wp (ret a) Qn Qt m.
Proof. intros H. exact H. Qed.

Lemma wp_throw e m : Qt e m -> wp (throw e) Qn Qt m.
Proof. intros H. exact H. Qed.

Lemma wp_bind {B} (x : M B) (k : B -> M A) m :
  wp x (fun b m' => wp (k b) Qn Qt m') Qt m -> wp (bind x k) Qn Qt m.
Proof.
  unfold wp, bind. destruct (x m) as [[b|e] m']; intros H; exact H.
Qed.

Lemma wp_mono (x : M A) (Qn' : A -> Machine -> Prop)
    (Qt' : JsError -> Machine -> Prop) m :
  wp x Qn' Qt' m ->
  (forall a m', Qn' a m' -> Qn a m') ->
  (forall e m', Qt' e m' -> Qt e m') ->
  wp x Qn Qt m.
Proof.
  unfold wp. destruct (x m) as [[a|e] m']; intros H Hn Ht; auto.
Qed.

Lemma wp_await (c : Call) (r : Reply A) m :
  (forall a, settled r = inr a ->
             Qn a (fold_left deliver (emitted r) (record c m))) ->
  (forall e, settled r = inl e ->
             Qt e (fold_left deliver (emitted r) (record c m))) ->
  wp (await c r) Qn Qt m.
Proof.
  unfold wp, await. destruct (settled r) as [e|a]; intros Hn Ht; auto.
Qed.

Lemma wp_try_catch (x : M A) (h : JsError -> M A) m :
  wp x Qn (fun e m' => wp (h e) Qn Qt m') m -> wp (try_catch x h) Qn Qt m.
Proof.
  unfold wp, try_catch. destruct (x m) as [[a|e] m']; intros H; exact H.
Qed.

Lemma wp_try_finally (x : M A) (f : M unit) m :
  wp x (fun a m' => wp f (fun _ m'' => Qn a m'') Qt m')
       (fun e m' => wp f (fun _ m'' => Qt e m'') Qt m') m ->
  wp (try_finally x f) Qn Qt m.
Proof.
  unfold wp, try_finally. destruct (x m) as [[a|e] m']; intros H;
    destruct (f m') as [[u|e'] m'']; exact H.
Qed.
End WP.

Lemma wp_bind_with {A B} (R : B -> Machine -> Prop) (x : M B) (k : B -> M A)
    (Qn : A -> Machine -> Prop) (Qt : JsError -> Machine -> Prop) m :
  wp x R Qt m ->
  (forall b m', R b m' -> wp (k b) Qn Qt m') ->
  wp (bind x k) Qn Qt m.
Proof.
  intros Hx Hk. apply wp_bind. eapply wp_mono; [exact Hx| |auto].
  intros b m' Hb. apply Hk, Hb.
Qed.

Lemma wp_get_this (Qn : Scraper.t -> Machine -> Prop) Qt m :
  Qn (this m) m -> wp get_this Qn Qt m.
Proof. intros H. exact H. Qed.

Lemma wp_modify (f : Machine -> Machine) (Qn : unit -> Machine -> Prop) Qt m :
  Qn tt (f m) -> wp (modify f) Qn Qt m.
Proof. intros H. exact H. Qed.

(** Reading a triple off a computed result. *)
Lemma wp_elim {A} (x : M A) Qn Qt m :
  wp x Qn Qt m ->
  (exists a, fst (x m) = Normal a /\ Qn a (snd (x m)))
  \/ (exists e, fst (x m) = Throw e /\ Qt e (snd (x m))).
Proof.
  unfold wp. destruct (x m) as [[a|e] m']; simpl; eauto.
Qed.

Lemma wp_trivial {A} (x : M A) m : wp x (fun _ _ => True) (fun _ _ => True) m.
Proof. unfold wp. destruct (x m) as [[a|e] m']; exact I. Qed.

(** One step of symbolic execution of a [wp] goal. *)
Ltac wp_step :=
  cbv beta zeta;
  lazymatch goal with
  | |- wp (bind _ _) _ _ _ => apply wp_bind
  | |- wp (ret _) _ _ _ => apply wp_ret
  | |- wp (throw _) _ _ _ => apply wp_throw
  | |- wp get_this _ _ _ => apply wp_get_this
  | |- wp (modify _) _ _ _ => apply wp_modify
  | |- wp (call _) _ _ _ => unfold call; apply wp_modify
  | |- wp (page_on _) _ _ _ => unfold page_on; apply wp_modify
  | |- wp (page_off _) _ _ _ => unfold page_off; apply wp_modify
  | |- wp (await _ _) _ _ _ => apply wp_await; intros
  | |- wp (try_catch _ _) _ _ _ => apply wp_try_catch
  | |- wp (try_finally _ _) _ _ _ => apply wp_try_finally
  | |- wp (catch_log _) _ _ _ => unfold catch_log
  | |- wp (match ?x with _ => _ end) _ _ _ => destruct x eqn:?
  end.

(** Skip a step whose effect does not matter for the goal. *)
Ltac wp_skip :=
  cbv beta zeta;
  apply (wp_bind_with (fun _ _ => True)); [apply wp_trivial|intros ? ? _].

(** *** The envelope of [run] *)

Section Envelope.
Variable env : gmap string string.
Variable svc : Service.

(** When the [try] block returns, the two mandatory fields are set. *)
Lemma scrape_try_populated m :
  wp (scrape_try env svc)
     (fun r _ => IScraperResult.url r = Some (final_url svc)
                 /\ exists c, IScraperResult.status_code r = Some c)
     (fun _ _ => True) m.
Proof.
  unfold scrape_try. do 15 wp_skip.
  wp_step. wp_step; [|exact I]. wp_step. wp_step; [|exact I]. wp_step.
  simpl. eauto.
Qed.

Lemma scrape_finally_returns m :
  wp (scrape_finally svc) (fun _ _ => True) (fun _ _ => False) m.
Proof.
  unfold scrape_finally. wp_step.
  eapply wp_mono; [apply wp_trivial|auto|].
  intros e m' _. wp_step. exact I.
Qed.

(** [scrape] itself never completes abruptly. *)
Lemma scrape_populated m :
  wp (scrape env svc)
     (fun r _ => exists u c, IScraperResult.url r = Some u
                             /\ IScraperResult.status_code r = Some c)
     (fun _ _ => False) m.
Proof.
  unfold scrape. wp_step. wp_step.
  eapply wp_mono; [apply scrape_try_populated| |].
  - intros r m' (Hu & c & Hc).
    eapply wp_mono; [apply scrape_finally_returns| |auto].
    intros _ m'' _. eauto.
  - intros e m' _. unfold scrape_catch. wp_step. wp_step. wp_step.
    eapply wp_mono; [apply scrape_finally_returns| |auto].
    intros _ m'' _. simpl. eauto.
Qed.

Lemma run_populated m :
  wp (run env svc)
     (fun r _ => exists u c, IScraperResult.url r = Some u
                             /\ IScraperResult.status_code r = Some c)
     (fun _ _ => False) m.
Proof.
  unfold run. wp_step. wp_step.
  eapply wp_mono; [apply scrape_populated| |].
  - intros r m' H. wp_step. exact H.
  - intros e m' [].
Qed.
End Envelope.

(** C1: for every environment, service and configuration, [run] returns an
    envelope, never an exception, and the envelope has [url] and
    [status_code]. *)
Theorem run_never_raises env svc cfg :
  exists r u c,
    fst (session env svc cfg) = Normal r
    /\ IScraperResult.url r = Some u
    /\ IScraperResult.status_code r = Some c.
Proof.
  destruct (wp_elim _ _ _ _ (run_populated env svc (boot (new_Scraper env cfg))))
    as [(r & Hr & u & c & Hu & Hc)|(e & _ & [])].
  exists r, u, c. auto.
Qed.

(** *** Preserved relations *)

Section Keeps.
Variable R : Machine -> Machine -> Prop.
Hypothesis R_refl : forall m, R m m.
Hypothesis R_trans : forall m1 m2 m3, R m1 m2 -> R m2 m3 -> R m1 m3.
Hypothesis R_record : forall c m, R m (record c m).
Hypothesis R_deliver : forall m ev, R m (deliver m ev).

Lemma keeps_ret {A} (a : A) : keeps R (ret a).
Proof. intros m. apply R_refl. Qed.

Lemma keeps_throw {A} e : keeps R (@throw A e).
Proof. intros m. apply R_refl. Qed.

Lemma keeps_get_this : keeps R get_this.
Proof. intros m. apply R_refl. Qed.

Lemma keeps_modify f : (forall m, R m (f m)) -> keeps R (modify f).
Proof. intros H m. apply H. Qed.

Lemma keeps_bind {A B} (x : M A) (k : A -> M B) :
  keeps R x -> (forall a, keeps R (k a)) -> keeps R (bind x k).
Proof.
  intros Hx Hk m. unfold bind. specialize (Hx m).
  destruct (x m) as [[a|e] m']; simpl in *; [|exact Hx].
  eapply R_trans; [exact Hx|apply Hk].
Qed.

Lemma keeps_delivered evs m : R m (fold_left deliver evs m).
Proof.
  revert m. induction evs as [|ev evs IH]; intros m; simpl; [apply R_refl|].
  eapply R_trans; [apply R_deliver|apply IH].
Qed.

Lemma keeps_await {A} c (r : Reply A) : keeps R (await c r).
Proof.
  intros m. unfold await.
  assert (H : R m (fold_left deliver (emitted r) (record c m))).
  { eapply R_trans; [apply R_record|apply keeps_delivered]. }
  destruct (settled r); exact H.
Qed.

Lemma keeps_try_catch {A} (x : M A) h :
  keeps R x -> (forall e, keeps R (h e)) -> keeps R (try_catch x h).
Proof.
  intros Hx Hh m. unfold try_catch. specialize (Hx m).
  destruct (x m) as [[a|e] m']; simpl in *; [exact Hx|].
  eapply R_trans; [exact Hx|apply Hh].
Qed.

Lemma keeps_try_finally {A} (x : M A) f :
  keeps R x -> keeps R f -> keeps R (try_finally x f).
Proof.
  intros Hx Hf m. unfold try_finally. specialize (Hx m).
  destruct (x m) as [c m']; simpl in *. specialize (Hf m').
  destruct (f m') as [[u|e] m'']; simpl in *; eapply R_trans; eauto.
Qed.
End Keeps.

(** Structural proof of a [keeps] goal; the goals left are those of the
    [modify] steps. *)
Ltac keeps_tac R_refl R_trans R_record R_deliver :=
  repeat (cbv beta zeta;
    lazymatch goal with
    | |- keeps _ (bind _ _) => apply keeps_bind; [exact R_trans| |intros ?]
    | |- keeps _ (ret _) => apply keeps_ret; exact R_refl
    | |- keeps _ (throw _) => apply keeps_throw; exact R_refl
    | |- keeps _ get_this => apply keeps_get_this; exact R_refl
    | |- keeps _ (await _ _) =>
        apply keeps_await;
        [exact R_refl|exact R_trans|exact R_record|exact R_deliver]
    | |- keeps _ (modify _) => apply keeps_modify; intros ?
    | |- keeps _ (call _) => unfold call
    | |- keeps _ (page_on _) => unfold page_on
    | |- keeps _ (page_off _) => unfold page_off
    | |- keeps _ (catch_log _) => unfold catch_log
    | |- keeps _ (try_catch _ _) =>
        apply keeps_try_catch; [exact R_trans| |intros ?]
    | |- keeps _ (try_finally _ _) =>
        apply keeps_try_finally; [exact R_trans| |]
    | |- keeps _ (match ?x with _ => _ end) => destruct x
    end).

Lemma same_config_refl m : same_config m m.
Proof. reflexivity. Qed.

Lemma same_config_trans m1 m2 m3 :
  same_config m1 m2 -> same_config m2 m3 -> same_config m1 m3.
Proof. unfold same_config. congruence. Qed.

Lemma same_config_record c m : same_config m (record c m).
Proof. reflexivity. Qed.

Lemma same_config_deliver m ev : same_config m (deliver m ev).
Proof. unfold same_config. rewrite deliver_this. reflexivity. Qed.

Ltac keeps_config :=
  keeps_tac same_config_refl same_config_trans same_config_record
            same_config_deliver;
  try reflexivity.

Lemma scrape_try_same_config env svc : keeps same_config (scrape_try env svc).
Proof.
  unfold scrape_try, setupBrowser, setupContext, setupPage. keeps_config.
Qed.



(** *** Navigation without a response *)

Lemma resolved_not_rejected {A} (r : Reply A) e :
  resolved r -> settled r = inl e -> False.
Proof. intros [a Ha] He. congruence. Qed.

Ltac coop_contra H :=
  exfalso;
  lazymatch goal with
  | He : settled _ = inl _ |- _ =>
      first [ exact (resolved_not_rejected _ _ (coop_connect _ H _) He)
            | exact (resolved_not_rejected _ _ (coop_newContext _ H _) He)
            | exact (resolved_not_rejected _ _ (coop_newPage _ H) He)
            | exact (resolved_not_rejected _ _ (coop_route _ H _ _) He)
            | exact (resolved_not_rejected _ _ (coop_waitForTimeout _ H _) He)
            | exact (resolved_not_rejected _ _ (coop_waitForSelector _ H _) He)
            | exact (resolved_not_rejected _ _ (coop_evaluate _ H _) He)
            | exact (resolved_not_rejected _ _ (coop_screenshot _ H _ _) He)
            | exact (resolved_not_rejected _ _ (coop_content _ H) He)
            | exact (resolved_not_rejected _ _ (coop_cookies _ H) He) ]
  end.

Section NullResponse.
Variable env : gmap string string.
Variable svc : Service.
Variable cfg : IScraperConfig.t.
Hypothesis no_response : forall u w, settled (goto svc u w) = inr None.
Hypothesis Hcoop : cooperative svc.
Hypothesis Hjs : script_decodes cfg.

Lemma setupBrowser_resolves m :
  wp (setupBrowser env svc) (fun _ _ => True) (fun _ _ => False) m.
Proof.
  unfold setupBrowser. do 4 wp_step; [|coop_contra Hcoop]. wp_step. exact I.
Qed.

Lemma setupContext_resolves m :
  Scraper.browser (this m) <> None ->
  wp (setupContext svc) (fun _ _ => True) (fun _ _ => False) m.
Proof.
  intros Hb. unfold setupContext. do 3 wp_step; [|now elim Hb].
  do 2 wp_step; [|coop_contra Hcoop]. wp_step. exact I.
Qed.

Lemma setupPage_resolves m :
  Scraper.context (this m) <> None ->
  wp (setupPage svc) (fun _ _ => True) (fun _ _ => False) m.
Proof.
  intros Hc. unfold setupPage. do 3 wp_step; [|now elim Hc].
  do 2 wp_step; [|coop_contra Hcoop].
  apply (wp_bind_with (fun _ _ => True)).
  - do 2 wp_step; try exact I. wp_step; [exact I|coop_contra Hcoop].
  - intros _ m' _. do 3 wp_step. exact I.
Qed.

Lemma scrape_try_without_response :
  wp (scrape_try env svc)
     (fun r _ =>
        IScraperResult.status_code r = Some 0%Z
        /\ IScraperResult.headers r = Some ∅
        /\ IScraperResult.error r = None
        /\ IScraperResult.url r = Some (final_url svc)
        /\ (exists b, IScraperResult.body r = Some b)
        /\ (exists c, IScraperResult.cookies r = Some c))
     (fun _ _ => False)
     (boot (new_Scraper env cfg)).
Proof.
  unfold scrape_try. do 2 wp_step.
  cbn [this boot new_Scraper Scraper._CONFIG].
  apply (wp_bind_with (fun _ _ => True)); [apply setupBrowser_resolves|].
  intros b m1 _.
  apply (wp_bind_with (fun _ m => Scraper.browser (this m) <> None));
    [wp_step; discriminate|].
  intros _ m2 Hb.
  apply (wp_bind_with (fun _ _ => True)); [apply setupContext_resolves, Hb|].
  intros c m3 _.
  apply (wp_bind_with (fun _ m => Scraper.context (this m) <> None));
    [wp_step; discriminate|].
  intros _ m4 Hc.
  apply (wp_bind_with (fun _ _ => True)); [apply setupPage_resolves, Hc|].
  intros p m5 _.
  do 8 wp_step. do 2 wp_step;
    [|rewrite no_response in H; discriminate].
  rewrite no_response in H. injection H as <-.
  apply (wp_bind_with (fun _ _ => True)).
  { destruct (IScraperConfig.wait_for cfg) as [w|]; [|wp_step; exact I].
    destruct (truthy_number w); [|wp_step; exact I].
    wp_step; [exact I|coop_contra Hcoop]. }
  intros _ m6 _.
  apply (wp_bind_with (fun _ _ => True)).
  { destruct (IScraperConfig.wait_for_css cfg) as [css|]; [|wp_step; exact I].
    destruct (truthy_string css); [|wp_step; exact I].
    wp_step; [exact I|coop_contra Hcoop]. }
  intros _ m7 _.
  apply (wp_bind_with
           (fun r _ => IScraperResult.headers r = Some ∅
                       /\ IScraperResult.error r = None)).
  { destruct (IScraperConfig.eval_js cfg) as [js|] eqn:Ejs;
      [|wp_step; split; reflexivity].
    destruct (Hjs js Ejs) as [script ->].
    do 2 wp_step; [|coop_contra Hcoop]. wp_step. split; reflexivity. }
  intros r1 m8 [Hh He].
  apply (wp_bind_with
           (fun r _ => IScraperResult.headers r = Some ∅
                       /\ IScraperResult.error r = None)).
  { destruct (IScraperConfig.screenshot cfg) as [v|];
      [|wp_step; split; assumption].
    destruct (truthy_StringBoolean v); [|wp_step; split; assumption].
    do 2 wp_step; [|coop_contra Hcoop]. wp_step. split; assumption. }
  intros r2 m9 [Hh2 He2].
  do 2 wp_step; [|coop_contra Hcoop].
  do 2 wp_step; [|coop_contra Hcoop].
  wp_step. simpl. eauto 10.
Qed.
End NullResponse.

(** C8: when the navigation resolves without a response object and every
    other request of the session resolves (and the script, if any, decodes),
    [run] returns a success envelope: empty headers, status code 0, no error,
    with the final URL, the body and the cookies. *)
Theorem null_response_is_success env svc cfg :
  (forall u w, settled (goto svc u w) = inr None) ->
  cooperative svc ->
  script_decodes cfg ->
  exists r body cookies,
    fst (session env svc cfg) = Normal r
    /\ IScraperResult.status_code r = Some 0%Z
    /\ IScraperResult.headers r = Some ∅
    /\ IScraperResult.error r = None
    /\ IScraperResult.url r = Some (final_url svc)
    /\ IScraperResult.body r = Some body
    /\ IScraperResult.cookies r = Some cookies.
Proof.
  intros Hnull Hcoop Hjs.
  pose proof (scrape_try_without_response env svc cfg Hnull Hcoop Hjs) as H.
  pose proof (scrape_finally_returns svc) as Hf.
  unfold session, run, scrape, try_finally, try_catch, bind. cbv beta zeta.
  unfold wp in H.
  destruct (scrape_try env svc (boot (new_Scraper env cfg))) as [[r|e] m1];
    [|destruct H].
  specialize (Hf m1). unfold wp in Hf.
  destruct (scrape_finally svc m1) as [[u|e'] m2]; [|destruct Hf].
  destruct H as (Hs & Hh & He & Hu & (b & Hb) & (c & Hc)).
  exists r, b, c. simpl. auto 10.
Qed.

Lemma obliging_cooperative res : cooperative (obliging res).
Proof. constructor; intros; eexists; reflexivity. Qed.

Lemma null_response_is_success_witness :
  exists r body cookies,
    fst (session ∅ (obliging None) full_config) = Normal r
    /\ IScraperResult.status_code r = Some 0%Z
    /\ IScraperResult.headers r = Some ∅
    /\ IScraperResult.error r = None
    /\ IScraperResult.url r = Some (final_url (obliging None))
    /\ IScraperResult.body r = Some body
    /\ IScraperResult.cookies r = Some cookies.
Proof.
  apply (null_response_is_success ∅ (obliging None) full_config).
  - intros u w. reflexivity.
  - apply obliging_cooperative.
  - intros js H. injection H as <-. eexists. reflexivity.
Defined.

(** *** The order of the page steps *)

Section PageSteps.
Lemma appends_ret {A} (a : A) : appends (ret a) [].
Proof. intros m. simpl. symmetry. apply app_nil_r. Qed.

Lemma appends_throw {A} e : appends (@throw A e) [].
Proof. intros m. simpl. symmetry. apply app_nil_r. Qed.

Lemma appends_get_this : appends get_this [].
Proof. intros m. simpl. symmetry. apply app_nil_r. Qed.

Lemma appends_modify f :
  (forall m, page_steps_of (f m) = page_steps_of m) -> appends (modify f) [].
Proof. intros H m. simpl. rewrite H. symmetry. apply app_nil_r. Qed.

Lemma appends_await {A} c (r : Reply A) :
  appends (await c r) (if is_page_step c then [c] else []).
Proof.
  intros m. unfold await.
  assert (H : page_steps_of (fold_left deliver (emitted r) (record c m))
              = page_steps_of m ++ (if is_page_step c then [c] else [])).
  { unfold page_steps_of. rewrite delivered_calls by reflexivity.
    simpl. rewrite List.filter_app. simpl.
    destruct (is_page_step c); reflexivity. }
  destruct (settled r); exact H.
Qed.

Lemma appends_bind {A B} (x : M A) (k : A -> M B) seg :
  appends x seg -> (forall a, appends (k a) []) -> appends (bind x k) seg.
Proof.
  intros Hx Hk m. unfold bind. specialize (Hx m).
  destruct (x m) as [[a|e] m']; simpl in *; [|exact Hx].
  rewrite Hk, Hx. apply app_nil_r.
Qed.

Lemma appends_try_catch {A} (x : M A) h :
  appends x [] -> (forall e, appends (h e) []) -> appends (try_catch x h) [].
Proof.
  intros Hx Hh m. unfold try_catch. specialize (Hx m).
  destruct (x m) as [[a|e] m']; simpl in *; [exact Hx|].
  rewrite Hh, Hx. apply app_nil_r.
Qed.

Lemma emits_ret {A} (a : A) m : emits (ret a) [] m.
Proof.
  exists []. simpl. split; [symmetry; apply app_nil_r|]. split; auto.
Qed.

Lemma emits_get_this {A} (k : Scraper.t -> M A) l m :
  emits (k (this m)) l m -> emits (bind get_this k) l m.
Proof. intros H. exact H. Qed.

Lemma emits_bind {A B} (x : M A) (k : A -> M B) s1 s2 m :
  appends x s1 ->
  (forall a m', emits (k a) s2 m') ->
  emits (bind x k) (s1 ++ s2) m.
Proof.
  intros Hx Hk. unfold emits, bind. specialize (Hx m).
  destruct (x m) as [[a|e] m']; simpl in *.
  - destruct (Hk a m') as (l' & Hl & Hp & Hn).
    exists (s1 ++ l'). rewrite Hl, Hx, app_assoc. split; [reflexivity|].
    split; [apply prefix_app, Hp|].
    intros b Hb. f_equal. apply (Hn b Hb).
  - exists s1. split; [exact Hx|]. split; [apply prefix_app_r; reflexivity|].
    intros b Hb. discriminate Hb.
Qed.
End PageSteps.

Ltac appends_tac :=
  repeat (cbv beta zeta;
    lazymatch goal with
    | |- appends (bind _ _) _ => apply appends_bind; [|intros ?]
    | |- appends (ret _) _ => apply appends_ret
    | |- appends (throw _) _ => apply appends_throw
    | |- appends get_this _ => apply appends_get_this
    | |- appends (modify _) _ =>
        apply appends_modify; intros ?; unfold page_steps_of; simpl;
        rewrite ?List.filter_app; simpl; rewrite ?app_nil_r; reflexivity
    | |- appends (await ?c ?r) _ => exact (appends_await c r)
    | |- appends (call _) _ => unfold call
    | |- appends (page_on _) _ => unfold page_on
    | |- appends (page_off _) _ => unfold page_off
    | |- appends (catch_log _) _ => unfold catch_log
    | |- appends (try_catch _ _) _ => apply appends_try_catch; [|intros ?]
    | |- appends (match ?x with _ => _ end) _ => destruct x
    end).

Section Order.
Variable env : gmap string string.
Variable svc : Service.

Lemma emits_bind_nil {A B} (x : M A) (k : A -> M B) l m :
  appends x [] -> (forall a m', emits (k a) l m') -> emits (bind x k) l m.
Proof. intros Hx Hk. exact (emits_bind x k [] l m Hx Hk). Qed.

Lemma emits_bind_cons {A B} (x : M A) (k : A -> M B) c l m :
  appends x [c] -> (forall a m', emits (k a) l m') ->
  emits (bind x k) (c :: l) m.
Proof. intros Hx Hk. exact (emits_bind x k [c] l m Hx Hk). Qed.

Lemma scrape_try_emits m :
  emits (scrape_try env svc)
        (page_steps (Scraper._CONFIG (this m)) (Scraper.timeout (this m))) m.
Proof.
  unfold scrape_try. apply emits_get_this. cbv beta zeta.
  generalize (this m). intros s. unfold page_steps.
  apply emits_bind_nil; [unfold setupBrowser; appends_tac|intros b m1].
  apply emits_bind_nil; [appends_tac|intros _ m2].
  apply emits_bind_nil; [unfold setupContext; appends_tac|intros c m3].
  apply emits_bind_nil; [appends_tac|intros _ m4].
  apply emits_bind_nil; [unfold setupPage; appends_tac|intros p m5].
  do 4 (apply emits_bind_nil; [appends_tac|intros _ ?]).
  apply emits_bind_cons; [appends_tac|intros res m6].
  apply emits_bind; [unfold fixed_wait; appends_tac|intros _ m7].
  apply emits_bind; [unfold selector_wait; appends_tac|intros _ m8].
  apply emits_bind; [unfold script_evaluation; appends_tac|intros r1 m9].
  apply emits_bind; [unfold full_page_screenshot; appends_tac|intros r2 m10].
  apply emits_bind_cons; [appends_tac|intros body m11].
  apply emits_bind_cons; [appends_tac|intros cookies m12].
  apply emits_ret.
Qed.

Lemma scrape_finally_appends : appends (scrape_finally svc) [].
Proof. unfold scrape_finally, cleanup. appends_tac. Qed.

(** The page steps of [run] are those of the [try] block. *)
Lemma run_page_steps m :
  page_steps_of (snd (run env svc m))
  = page_steps_of (snd (scrape_try env svc m)).
Proof.
  pose proof (scrape_finally_returns svc) as Hf.
  unfold run, scrape, try_finally, try_catch, bind. cbv beta zeta.
  destruct (scrape_try env svc m) as [[r|e] m1]; simpl.
  - specialize (Hf m1). unfold wp in Hf.
    pose proof (scrape_finally_appends m1) as Ha.
    destruct (scrape_finally svc m1) as [[u|e'] m2]; [|destruct Hf].
    simpl in *. rewrite Ha. apply app_nil_r.
  - specialize (Hf m1). unfold wp in Hf.
    pose proof (scrape_finally_appends m1) as Ha.
    destruct (scrape_finally svc m1) as [[u|e'] m2]; [|destruct Hf].
    simpl in *. rewrite Ha. apply app_nil_r.
Qed.

(** An envelope without [error] comes from a [try] block that returned. *)
Lemma run_success_inv m r :
  fst (run env svc m) = Normal r ->
  IScraperResult.error r = None ->
  fst (scrape_try env svc m) = Normal r.
Proof.
  pose proof (scrape_finally_returns svc) as Hf.
  unfold run, scrape, try_finally, try_catch, bind. cbv beta zeta.
  destruct (scrape_try env svc m) as [[r'|e] m1]; simpl.
  - specialize (Hf m1). unfold wp in Hf.
    destruct (scrape_finally svc m1) as [[u|e'] m2]; [|destruct Hf].
    simpl. auto.
  - specialize (Hf m1). unfold wp in Hf.
    destruct (scrape_finally svc m1) as [[u|e'] m2]; [|destruct Hf].
    simpl. intros H. injection H as <-. discriminate.
Qed.
End Order.

Lemma timeout_of_new_Scraper env cfg :
  Scraper.timeout (new_Scraper env cfg) = effective_timeout cfg.
Proof.
  unfold Scraper.timeout, effective_timeout. simpl.
  destruct (IScraperConfig.timeout cfg); reflexivity.
Qed.



(** *** Teardown *)

Lemma same_frame_refl m : same_frame m m.
Proof. split; reflexivity. Qed.

Lemma same_frame_trans m1 m2 m3 :
  same_frame m1 m2 -> same_frame m2 m3 -> same_frame m1 m3.
Proof. unfold same_frame. intros [? ?] [? ?]. split; congruence. Qed.

Lemma same_frame_record c m : same_frame m (record c m).
Proof. split; reflexivity. Qed.

Lemma same_frame_deliver m ev : same_frame m (deliver m ev).
Proof. split; [apply deliver_this|apply deliver_listeners]. Qed.

Lemma same_this_refl m : same_this m m.
Proof. reflexivity. Qed.

Lemma same_this_trans m1 m2 m3 :
  same_this m1 m2 -> same_this m2 m3 -> same_this m1 m3.
Proof. unfold same_this. congruence. Qed.

Lemma same_this_record c m : same_this m (record c m).
Proof. reflexivity. Qed.

Lemma same_this_deliver m ev : same_this m (deliver m ev).
Proof. apply deliver_this. Qed.

Ltac keeps_frame :=
  keeps_tac same_frame_refl same_frame_trans same_frame_record
            same_frame_deliver;
  try (split; reflexivity).

Ltac keeps_this :=
  keeps_tac same_this_refl same_this_trans same_this_record same_this_deliver;
  try reflexivity.

Lemma wp_of_keeps {A} (R : Machine -> Machine -> Prop) (x : M A)
    (Q : Machine -> Prop) m :
  keeps R x -> (forall m', R m m' -> Q m') ->
  wp x (fun _ m' => Q m') (fun _ m' => Q m') m.
Proof.
  intros Hk HQ. specialize (Hk m). unfold wp.
  destruct (x m) as [[a|e] m']; simpl in Hk; apply HQ, Hk.
Qed.

Lemma wp_framed {A} (x : M A) s (Qt : JsError -> Machine -> Prop) m :
  keeps same_frame x ->
  at_stage s m ->
  (forall e m', at_stage s m' -> Qt e m') ->
  wp x (fun _ m' => at_stage s m') Qt m.
Proof.
  intros Hk [Hs Hl] HQ. destruct (Hk m) as [Ht Hl']. unfold wp.
  assert (Hst : at_stage s (snd (x m))) by (split; congruence).
  destruct (x m) as [[a|e] m']; simpl in *; auto.
Qed.

Lemma at_stage_held s m :
  at_stage s m -> chained s -> held m.
Proof. intros [Hs Hl] Hc. unfold held. rewrite Hs. split; auto. Qed.

Lemma extended_twice m cs ls cs' ls' :
  extended (extended m cs ls) cs' ls' = extended m (cs ++ cs') (ls ++ ls').
Proof. unfold extended. simpl. rewrite <- !app_assoc. reflexivity. Qed.

Lemma extended_nothing m : listeners m = [] -> extended m [] [] = m.
Proof.
  intros H. destruct m as [s cs ls l t]. simpl in H. subst l.
  unfold extended. simpl. rewrite !app_nil_r. reflexivity.
Qed.

Lemma unsubscribe_all (l : list PageEvent) :
  List.filter (fun x => negb (PageEvent_eqb Dialog x))
    (List.filter (fun x => negb (PageEvent_eqb Close x))
       (List.filter (fun x => negb (PageEvent_eqb Crash x)) l)) = [].
Proof.
  induction l as [|ev l IH]; [reflexivity|]. destruct ev; simpl; exact IH.
Qed.

Section Teardown.
Variable env : gmap string string.
Variable svc : Service.

Lemma scrape_try_held cfg :
  wp (scrape_try env svc) (fun _ m => held m) (fun _ m => held m)
     (boot (new_Scraper env cfg)).
Proof.
  set (s0 := new_Scraper env cfg).
  assert (Hframe : forall s (e : JsError) m,
             at_stage s m -> chained s -> held m)
    by (intros s _ m; apply at_stage_held).
  unfold scrape_try. do 2 wp_step.
  apply (wp_bind_with (fun _ m => at_stage s0 m)).
  { apply wp_framed; [unfold setupBrowser; keeps_frame|split; reflexivity|].
    intros e mx H. apply (Hframe _ e _ H). split; simpl; congruence. }
  intros b m1 H1.
  apply (wp_bind_with (fun _ m => at_stage (Scraper.set_browser b s0) m)).
  { wp_step. destruct H1 as [H1 H1']. split; simpl; congruence. }
  intros _ m2 H2.
  apply (wp_bind_with (fun _ m => at_stage (Scraper.set_browser b s0) m)).
  { apply wp_framed; [unfold setupContext; keeps_frame|exact H2|].
    intros e mx H. apply (Hframe _ e _ H). split; simpl; congruence. }
  intros c m3 H3.
  apply (wp_bind_with
           (fun _ m => at_stage (Scraper.set_context c
                                   (Scraper.set_browser b s0)) m)).
  { wp_step. destruct H3 as [H3 H3']. split; simpl; congruence. }
  intros _ m4 H4.
  apply (wp_bind_with
           (fun _ m => at_stage (Scraper.set_context c
                                   (Scraper.set_browser b s0)) m)).
  { apply wp_framed; [unfold setupPage; keeps_frame|exact H4|].
    intros e mx H. apply (Hframe _ e _ H). split; simpl; congruence. }
  intros p m5 H5.
  apply (wp_bind_with
           (fun _ m => this m = Scraper.set_page p
                                  (Scraper.set_context c
                                     (Scraper.set_browser b s0)))).
  { wp_step. destruct H5 as [H5 H5']. simpl. congruence. }
  intros _ m6 H6.
  apply (wp_of_keeps same_this); [keeps_this|].
  intros m' Hm'. unfold same_this in Hm'. rewrite H6 in Hm'.
  split; [split|]; rewrite Hm'; simpl; congruence.
Qed.

(** One closing step, on a machine without listeners. *)
Lemma closing_step c (r : Reply unit) m :
  listeners m = [] ->
  catch_log (await c r) m = (Normal tt, extended m [c] (rejection_log r)).
Proof.
  intros Hl. unfold catch_log, try_catch, await, rejection_log.
  rewrite delivered_deaf by exact Hl.
  destruct m as [s cs ls l t]. simpl in Hl. subst l.
  destruct (settled r) as [e|[]]; unfold extended; simpl;
    rewrite ?app_nil_r; reflexivity.
Qed.

Lemma effect_ret : effect (ret tt) [] [].
Proof. intros m Hl. unfold ret. rewrite extended_nothing by exact Hl. reflexivity. Qed.

Lemma effect_call c : effect (call c) [c] [].
Proof.
  intros m Hl. destruct m as [s cs ls l t]. simpl in Hl. subst l.
  unfold call, modify, record, extended. simpl. rewrite app_nil_r.
  reflexivity.
Qed.

Lemma effect_closing c r : effect (catch_log (await c r)) [c] (rejection_log r).
Proof. intros m Hl. apply closing_step, Hl. Qed.

Lemma effect_bind x y cs ls cs' ls' :
  effect x cs ls -> effect y cs' ls' ->
  effect (bind x (fun _ => y)) (cs ++ cs') (ls ++ ls').
Proof.
  intros Hx Hy m Hl. unfold bind. rewrite (Hx m Hl).
  rewrite Hy by reflexivity. rewrite extended_twice. reflexivity.
Qed.

Lemma cleanup_exact m :
  listeners m = [] ->
  cleanup svc m
  = (Normal tt,
     extended m (closing_calls svc (this m)) (closing_log svc (this m))).
Proof.
  unfold cleanup, bind at 1, get_this. generalize (this m) as s.
  intros s. revert m. change (effect
    (match Scraper.page s with
     | Some _ =>
         catch_log (await (CUnroute "**/*") (unroute svc "**/*")) >>
         catch_log (await CPageClose (page_close svc))
     | None => ret tt
     end >>
     match Scraper.context s with
     | Some _ => catch_log (await CContextClose (context_close svc))
     | None => ret tt
     end >>
     match Scraper.browser s with
     | Some _ =>
         if isConnected svc then
           call CRemoveAllListeners >>
           catch_log (await CBrowserClose (browser_close svc))
         else ret tt
     | None => ret tt
     end)
    (closing_calls svc s) (closing_log svc s)).
  unfold closing_calls, closing_log.
  apply effect_bind; [|apply effect_bind].
  - destruct (Scraper.page s); [|apply effect_ret].
    exact (effect_bind _ _ _ _ _ _ (effect_closing _ _) (effect_closing _ _)).
  - destruct (Scraper.context s); [apply effect_closing|apply effect_ret].
  - destruct (Scraper.browser s); [|apply effect_ret].
    destruct (isConnected svc); [|apply effect_ret].
    exact (effect_bind _ _ _ _ _ _ (effect_call _) (effect_closing _ _)).
Qed.

Lemma unsubscribe_exact m :
  (page_off Crash >> page_off Close >> page_off Dialog) m
  = (Normal tt, extended m [COff Crash; COff Close; COff Dialog] []).
Proof.
  destruct m as [s cs ls l t].
  unfold bind, page_off, modify, extended, with_listeners, record. simpl.
  rewrite unsubscribe_all, app_nil_r, <- !app_assoc. reflexivity.
Qed.

(** The [finally] clause, exactly. *)
Lemma scrape_finally_exact m :
  held m ->
  scrape_finally svc m
  = (Normal tt,
     extended m (teardown_calls svc (this m)) (closing_log svc (this m))).
Proof.
  intros [_ Hl]. unfold scrape_finally, try_catch, teardown_calls,
    unsubscriptions, bind at 1, get_this.
  destruct (Scraper.page (this m)) as [p|].
  - unfold bind at 1. rewrite unsubscribe_exact.
    rewrite cleanup_exact by reflexivity. rewrite extended_twice.
    reflexivity.
  - unfold bind at 1, ret. rewrite cleanup_exact by (apply Hl; reflexivity).
    reflexivity.
Qed.
End Teardown.

Lemma bind_Normal {A B} (x : M A) (k : A -> M B) m a m' :
  x m = (Normal a, m') -> bind x k m = k a m'.
Proof. intros H. unfold bind. rewrite H. reflexivity. Qed.

Lemma try_catch_Normal {A} (x : M A) h m a m' :
  x m = (Normal a, m') -> try_catch x h m = (Normal a, m').
Proof. intros H. unfold try_catch. rewrite H. reflexivity. Qed.

Lemma try_finally_Normal {A} (x : M A) f m c m' u m'' :
  x m = (c, m') -> f m' = (Normal u, m'') -> try_finally x f m = (c, m'').
Proof. intros Hx Hf. unfold try_finally. rewrite Hx, Hf. reflexivity. Qed.

(** The [try]/[catch] part of [scrape] always returns an envelope. *)
Lemma try_part_returns env svc m :
  exists r,
    try_catch (scrape_try env svc) scrape_catch m
    = (Normal r, snd (scrape_try env svc m)).
Proof.
  unfold try_catch. destruct (scrape_try env svc m) as [[r|e] m1]; simpl.
  - exists r. reflexivity.
  - eexists. reflexivity.
Qed.


Example teardown_after_timeout :
  let m := snd (session ∅ stubborn (bare_config "https://example.com" ProxyType.None)) in
  List.filter (fun c => negb (is_page_step c)) (calls m)
  = [CConnect (mkDescriptor "ws://127.0.0.1" "chromium" launchOptions);
     CNewContext launchOptions; CNewPage; CSetDefaultTimeout 60000;
     COn Crash; COn Close; COn Dialog;
     COff Crash; COff Close; COff Dialog;
     CUnroute "**/*"; CPageClose; CContextClose;
     CRemoveAllListeners; CBrowserClose]
  /\ console m
     = [ConsoleErrorObject (mkError "unroute failed");
        ConsoleErrorObject (mkError "context already closed")].
Proof. vm_compute. split; reflexivity. Qed.

(** *** The close listener *)

Section Agree.







End Agree.





Lemma deliver_listening m ev k : listening k (deliver m ev) = listening k m.
Proof. unfold listening. rewrite deliver_listeners. reflexivity. Qed.





(** * Further properties of the code *)

(** ** The resource interceptor *)

Lemma blockResources_In (t : string) (resources : list string) :
  blockResources t resources = RouteAbort <-> In t resources.
Proof.
  unfold blockResources.
  destruct (existsb (String.eqb t) resources) eqn:E.
  - split; [intros _|reflexivity].
    apply existsb_exists in E. destruct E as (x & Hx & Heq).
    apply String.eqb_eq in Heq. subst x. exact Hx.
  - split; [discriminate|]. intros Hin. exfalso.
    assert (H : existsb (String.eqb t) resources = true).
    { apply existsb_exists. exists t. split; [exact Hin|apply String.eqb_refl]. }
    congruence.
Qed.

(** X1: the interceptor never raises; it gives the route exactly one answer,
    [abort] when the resource type of the request is in the block list and
    [continue] otherwise, and it prints the rejection of that answer, if any,
    without trying the other answer. *)
Theorem interceptor_answers_once (route : Route.t) (resources : list string) :
  fst (blockResources_route route resources) = Normal tt
  /\ (In (Route.resourceType route) resources ->
      answers (snd (blockResources_route route resources)) = [RouteAbort]
      /\ printed (snd (blockResources_route route resources))
         = rejection_log (Route.abort route))
  /\ (~ In (Route.resourceType route) resources ->
      answers (snd (blockResources_route route resources)) = [RouteContinue]
      /\ printed (snd (blockResources_route route resources))
         = rejection_log (Route.continue route)).
Proof.
  unfold blockResources_route, rejection_log.
  destruct (blockResources (Route.resourceType route) resources) eqn:E.
  - apply blockResources_In in E. split; [|split].
    + destruct (settled (Route.abort route)) as [e|[]]; reflexivity.
    + intros _. destruct (settled (Route.abort route)) as [e|[]];
        split; reflexivity.
    + intros H. contradiction.
  - assert (Hn : ~ In (Route.resourceType route) resources).
    { intros Hin. apply blockResources_In in Hin. congruence. }
    split; [|split].
    + destruct (settled (Route.continue route)) as [e|[]]; reflexivity.
    + intros H. contradiction.
    + intros _. destruct (settled (Route.continue route)) as [e|[]];
        split; reflexivity.
Qed.

Lemma interceptor_answers_once_witness :
  answers (snd (blockResources_route
                  (Route.mk "image" (rejects "Route is already handled")
                     (resolves tt))
                  (split_comma "image,media"))) = [RouteAbort]
  /\ printed (snd (blockResources_route
                     (Route.mk "image" (rejects "Route is already handled")
                        (resolves tt))
                     (split_comma "image,media")))
     = [ConsoleErrorObject (mkError "Route is already handled")].
Proof.
  refine (proj1 (proj2 (interceptor_answers_once
                          (Route.mk "image" (rejects "Route is already handled")
                             (resolves tt))
                          (split_comma "image,media"))) _).
  left. reflexivity.
Defined.

(** ** Splitting the block list *)

Lemma split_comma_nonempty (s : string) : split_comma s <> [].
Proof.
  destruct s as [|c r]; simpl; [discriminate|].
  destruct (Ascii.eqb c ","%char); [discriminate|].
  destruct (split_comma r); discriminate.
Qed.

Lemma join_comma_cons (x : string) (l : list string) :
  l <> [] -> join_comma (x :: l) = (x ++ "," ++ join_comma l)%string.
Proof. destruct l; [congruence|reflexivity]. Qed.

(** X2: splitting at commas loses nothing: the items are never none, none of
    them contains a comma, and joining them with commas gives the string
    back; conversely a non-empty list of comma-free items is what its join
    splits into. *)
Theorem split_join_comma (s : string) (items : list string) :
  split_comma s <> []
  /\ forallb comma_free (split_comma s) = true
  /\ join_comma (split_comma s) = s
  /\ (items <> [] -> forallb comma_free items = true ->
      split_comma (join_comma items) = items).
Proof.
  split; [apply split_comma_nonempty|]. split; [|split].
  - induction s as [|c r IH]; [reflexivity|]. simpl.
    destruct (Ascii.eqb c ","%char) eqn:E; [exact IH|].
    destruct (split_comma r) as [|x xs]; simpl in *; rewrite E; simpl;
      [reflexivity|exact IH].
  - induction s as [|c r IH]; [reflexivity|]. simpl.
    destruct (Ascii.eqb_spec c ","%char) as [->|Hc].
    + rewrite join_comma_cons by apply split_comma_nonempty.
      simpl. rewrite IH. reflexivity.
    + pose proof (split_comma_nonempty r) as Hne.
      destruct (split_comma r) as [|x xs]; [congruence|].
      destruct xs as [|y ys]; simpl in *; rewrite <- IH; reflexivity.
  - revert items. 
    assert (Hone : forall x, comma_free x = true -> split_comma x = [x]).
    { induction x as [|c r IH]; [reflexivity|]. simpl. intros H.
      apply andb_true_iff in H. destruct H as [Hc Hr].
      apply negb_true_iff in Hc. rewrite Hc, (IH Hr). reflexivity. }
    assert (Happ : forall x rest, comma_free x = true ->
              split_comma (x ++ "," ++ rest) = x :: split_comma rest).
    { induction x as [|c r IH]; intros rest H; [reflexivity|].
      simpl in H. apply andb_true_iff in H. destruct H as [Hc Hr].
      apply negb_true_iff in Hc. simpl. rewrite Hc.
      change (split_comma (r ++ String "," rest))
        with (split_comma (r ++ "," ++ rest)).
      rewrite (IH rest Hr). reflexivity. }
    induction items as [|x l IH]; intros Hne Hall; [congruence|].
    simpl in Hall. apply andb_true_iff in Hall. destruct Hall as [Hx Hl].
    destruct l as [|y l'].
    + simpl. apply Hone, Hx.
    + rewrite join_comma_cons by discriminate. rewrite Happ by exact Hx.
      f_equal. apply IH; [discriminate|exact Hl].
Qed.

Lemma split_join_comma_witness :
  split_comma (join_comma ["image"; ""; " media"]) = ["image"; ""; " media"].
Proof.
  refine (proj2 (proj2 (proj2 (split_join_comma "" ["image"; ""; " media"])))
            _ _).
  - discriminate.
  - reflexivity.
Defined.

(** ** Decoding the script *)

Lemma decode_from_plain (s : string) :
  percent_free s = true -> decode_from Boundary s = Some s.
Proof.
  induction s as [|c r IH]; [reflexivity|]. simpl. intros H.
  apply andb_true_iff in H. destruct H as [Hc Hr].
  apply negb_true_iff in Hc. rewrite Hc, (IH Hr). reflexivity.
Qed.

Lemma decode_from_encoded_byte (c : Ascii.ascii) (r : string) :
  (Ascii.N_of_ascii c <? 128)%N = true ->
  decode_from Boundary
    (String "%" (String (hex_char (Ascii.N_of_ascii c / 16))
                   (String (hex_char (Ascii.N_of_ascii c mod 16)) r)))
  = String c <$> decode_from Boundary r.
Proof.
  destruct c as [b0 b1 b2 b3 b4 b5 b6 b7].
  destruct b7; [destruct b0, b1, b2, b3, b4, b5, b6; discriminate|].
  intros _. destruct b0, b1, b2, b3, b4, b5, b6; reflexivity.
Qed.

(** X3: [decodeURIComponent] leaves a script without percent sign as it is,
    and it inverts the byte-wise percent-encoding of ASCII text. *)
Theorem decode_round_trip (s : string) :
  (percent_free s = true -> decodeURIComponent s = inr s)
  /\ (ascii_text s = true -> decodeURIComponent (percent_encode s) = inr s).
Proof.
  unfold decodeURIComponent. split.
  - intros H. rewrite decode_from_plain by exact H. reflexivity.
  - intros H.
    assert (Hd : decode_from Boundary (percent_encode s) = Some s).
    { induction s as [|c r IH]; [reflexivity|].
      simpl in H. apply andb_true_iff in H. destruct H as [Hc Hr].
      cbn [percent_encode]. rewrite decode_from_encoded_byte by exact Hc.
      rewrite (IH Hr). reflexivity. }
    rewrite Hd. reflexivity.
Qed.

Lemma decode_round_trip_witness :
  decodeURIComponent "document.title" = inr "document.title"
  /\ decodeURIComponent (percent_encode "a % b") = inr "a % b".
Proof.
  split.
  - refine (proj1 (decode_round_trip "document.title") _). reflexivity.
  - refine (proj2 (decode_round_trip "a % b") _). reflexivity.
Defined.

(** ** The two envelopes *)

(** The envelope of a session, read off its [try] block. *)
Lemma session_of_try env svc cfg :
  match scrape_try env svc (boot (new_Scraper env cfg)) with
  | (Normal r, _) => fst (session env svc cfg) = Normal r
  | (Throw e, _) => fst (session env svc cfg) = Normal (failure_of cfg (message e))
  end.
Proof.
  pose proof (scrape_try_same_config env svc (boot (new_Scraper env cfg))) as Hc.
  pose proof (scrape_finally_returns svc) as Hf.
  unfold session, run, scrape, try_finally, try_catch, bind. cbv beta zeta.
  unfold same_config in Hc.
  destruct (scrape_try env svc (boot (new_Scraper env cfg))) as [[r|e] m1];
    simpl in Hc; specialize (Hf m1); unfold wp in Hf.
  - destruct (scrape_finally svc m1) as [[u|e'] m2]; [|destruct Hf].
    reflexivity.
  - unfold scrape_catch, bind, get_this, ret.
    destruct (scrape_finally svc m1) as [[u|e'] m2]; [|destruct Hf].
    simpl. rewrite Hc. reflexivity.
Qed.

Section SuccessEnvelope.
Variable env : gmap string string.
Variable svc : Service.
Variable cfg : IScraperConfig.t.

(** What the [try] block returns, field by field. *)
Lemma scrape_try_returns :
  wp (scrape_try env svc)
     (fun r _ =>
        exists u w res body cookies,
          navigation cfg = CGoto u w
          /\ settled (goto svc u w) = inr res
          /\ settled (content svc) = inr body
          /\ settled (context_cookies svc) = inr cookies
          /\ r = IScraperResult.mk (Some (final_url svc))
                   (Some (captured_status res)) (Some body) None (Some cookies)
                   (Some (captured_headers res)) (pictured svc cfg)
                   (evaluated svc cfg))
     (fun _ _ => True)
     (boot (new_Scraper env cfg)).
Proof.
  unfold scrape_try. do 2 wp_step.
  cbn [this boot]. rewrite timeout_of_new_Scraper.
  cbn [new_Scraper Scraper._CONFIG].
  do 9 wp_skip.
  do 2 wp_step; [|exact I]. rename H into Hgoto.
  do 2 wp_skip.
  apply (wp_bind_with
           (fun r _ =>
              r = IScraperResult.mk None None None None None
                    (Some (captured_headers a)) None (evaluated svc cfg)));
    [|intros r1 m1 ->].
  { unfold evaluated.
    destruct (IScraperConfig.eval_js cfg) as [js|]; [|wp_step; reflexivity].
    destruct (decodeURIComponent js) as [e|script]; [wp_step; exact I|].
    do 2 wp_step; [|exact I]. wp_step. rewrite H. reflexivity. }
  apply (wp_bind_with
           (fun r _ =>
              r = IScraperResult.mk None None None None None
                    (Some (captured_headers a)) (pictured svc cfg)
                    (evaluated svc cfg)));
    [|intros r2 m2 ->].
  { unfold pictured.
    destruct (IScraperConfig.screenshot cfg) as [v|]; [|wp_step; reflexivity].
    destruct (truthy_StringBoolean v); [|wp_step; reflexivity].
    do 2 wp_step; [|exact I]. wp_step. rewrite H. reflexivity. }
  do 2 wp_step; [|exact I]. rename H into Hcontent.
  do 2 wp_step; [|exact I]. rename H into Hcookies.
  wp_step. eexists _, _, a, a0, a1.
  split; [reflexivity|]. repeat split; assumption.
Qed.
End SuccessEnvelope.

(** X4: a success envelope is exactly what the service answered: the final
    URL of the page, the status and headers of the navigation response (0 and
    no header without a response), the page content, the cookies of the
    context, the value of the script if one is configured and the image if
    [screenshot] is truthy; it carries no [error]. *)
Theorem success_envelope env svc cfg r :
  fst (session env svc cfg) = Normal r ->
  IScraperResult.error r = None ->
  exists u w res body cookies,
    navigation cfg = CGoto u w
    /\ settled (goto svc u w) = inr res
    /\ settled (content svc) = inr body
    /\ settled (context_cookies svc) = inr cookies
    /\ r = IScraperResult.mk (Some (final_url svc))
             (Some (captured_status res)) (Some body) None (Some cookies)
             (Some (captured_headers res)) (pictured svc cfg)
             (evaluated svc cfg).
Proof.
  intros Hr He.
  pose proof (session_of_try env svc cfg) as Hs.
  pose proof (scrape_try_returns env svc cfg) as Hw. unfold wp in Hw.
  destruct (scrape_try env svc (boot (new_Scraper env cfg))) as [[r'|e] m1].
  - rewrite Hs in Hr. injection Hr as <-. exact Hw.
  - rewrite Hs in Hr. injection Hr as <-. discriminate He.
Qed.

Lemma success_envelope_witness :
  exists u w res body cookies,
    navigation full_config = CGoto u w
    /\ settled (goto (obliging (Some html_response)) u w) = inr res
    /\ settled (content (obliging (Some html_response))) = inr body
    /\ settled (context_cookies (obliging (Some html_response))) = inr cookies
    /\ IScraperResult.mk (Some "https://example.com/") (Some 200%Z)
         (Some "<html><body>hello</body></html>") None (Some [])
         (Some {[ "content-type" := "text/html" ]}) (Some "aGVsbG8=")
         (Some (JsNumber 2))
       = IScraperResult.mk (Some (final_url (obliging (Some html_response))))
           (Some (captured_status res)) (Some body) None (Some cookies)
           (Some (captured_headers res))
           (pictured (obliging (Some html_response)) full_config)
           (evaluated (obliging (Some html_response)) full_config).
Proof.
  refine (success_envelope ∅ (obliging (Some html_response)) full_config _ _ _).
  - vm_compute. reflexivity.
  - reflexivity.
Defined.

(** X5: every envelope has one of two shapes, never a mix: either it has no
    [error] and carries [url], [status_code], [body], [headers] and
    [cookies], or it is the failure envelope: the configured URL, a message
    and the status 500, and none of the capture fields. *)
Theorem envelope_shapes env svc cfg :
  exists r,
    fst (session env svc cfg) = Normal r
    /\ ((IScraperResult.error r = None
         /\ IScraperResult.url r = Some (final_url svc)
         /\ (exists c, IScraperResult.status_code r = Some c)
         /\ (exists b, IScraperResult.body r = Some b)
         /\ (exists h, IScraperResult.headers r = Some h)
         /\ (exists c, IScraperResult.cookies r = Some c))
        \/ (exists msg, r = failure_of cfg msg)).
Proof.
  pose proof (session_of_try env svc cfg) as Hs.
  pose proof (scrape_try_returns env svc cfg) as Hw. unfold wp in Hw.
  destruct (scrape_try env svc (boot (new_Scraper env cfg))) as [[r|e] m1].
  - exists r. split; [exact Hs|]. left.
    destruct Hw as (u & w & res & body & cookies & _ & _ & _ & _ & ->).
    simpl. eauto 10.
  - eexists. split; [exact Hs|]. right. eauto.
Qed.

(** ** A script that does not decode *)

Lemma prefix_In {A} (x : A) (l1 l2 : list A) :
  l1 `prefix_of` l2 -> In x l1 -> In x l2.
Proof. intros [k ->] H. apply in_or_app. left. exact H. Qed.

(** The page steps of a session, for every session. *)
Lemma session_page_steps env svc cfg :
  page_steps_of (snd (session env svc cfg))
    `prefix_of` page_steps cfg (effective_timeout cfg).
Proof.
  unfold session.
  destruct (scrape_try_emits env svc (boot (new_Scraper env cfg)))
    as (l' & Hl & Hp & _).
  simpl in Hl, Hp. rewrite timeout_of_new_Scraper in Hp.
  rewrite run_page_steps, Hl. exact Hp.
Qed.

Lemma page_step_In env svc cfg c :
  is_page_step c = true ->
  In c (calls (snd (session env svc cfg))) ->
  In c (page_steps cfg (effective_timeout cfg)).
Proof.
  intros Hc Hin. apply (prefix_In _ _ _ (session_page_steps env svc cfg)).
  unfold page_steps_of. apply filter_In. split; assumption.
Qed.

(** The evaluations among the page steps of a configuration. *)
Lemma evaluate_in_page_steps cfg t script :
  In (CEvaluate script) (page_steps cfg t) ->
  exists js, IScraperConfig.eval_js cfg = Some js
             /\ decodeURIComponent js = inr script.
Proof.
  unfold page_steps, navigation, fixed_wait, selector_wait, script_evaluation,
    full_page_screenshot.
  intros [H|H]; [discriminate|].
  repeat (apply in_app_or in H; destruct H as [H|H]).
  - destruct (IScraperConfig.wait_for cfg) as [w|]; [|destruct H].
    destruct (truthy_number w); [|destruct H].
    destruct H as [H|[]]. discriminate.
  - destruct (IScraperConfig.wait_for_css cfg) as [css|]; [|destruct H].
    destruct (truthy_string css); [|destruct H].
    destruct H as [H|[]]. discriminate.
  - destruct (IScraperConfig.eval_js cfg) as [js|]; [|destruct H].
    destruct (decodeURIComponent js) as [e|s] eqn:Hd; [destruct H|].
    destruct H as [H|[]]. injection H as ->. exists js. split; [reflexivity|exact Hd].
  - destruct (IScraperConfig.screenshot cfg) as [v|]; [|destruct H].
    destruct (truthy_StringBoolean v); [|destruct H].
    destruct H as [H|[]]. discriminate.
  - destruct H as [H|[H|[]]]; discriminate.
Qed.

Section Malformed.
Variable env : gmap string string.
Variable svc : Service.
Variable cfg : IScraperConfig.t.
Variable js : string.
Variable e : JsError.
Hypothesis Hjs : IScraperConfig.eval_js cfg = Some js.
Hypothesis Hdecode : decodeURIComponent js = inl e.

Lemma scrape_try_malformed :
  wp (scrape_try env svc) (fun _ _ => False) (fun _ _ => True)
     (boot (new_Scraper env cfg)).
Proof.
  unfold scrape_try. do 2 wp_step. cbn [this boot new_Scraper Scraper._CONFIG].
  do 12 wp_skip. wp_step. rewrite Hjs, Hdecode. wp_step. exact I.
Qed.

Lemma scrape_try_malformed_cooperative :
  cooperative svc ->
  (forall u w, resolved (goto svc u w)) ->
  wp (scrape_try env svc) (fun _ _ => False) (fun e' _ => e' = e)
     (boot (new_Scraper env cfg)).
Proof.
  intros Hcoop Hgoto.
  assert (Hweak : forall A (x : M A) m,
             wp x (fun _ _ => True) (fun _ _ => False) m ->
             wp x (fun _ _ => True) (fun e' _ => e' = e) m).
  { intros A x m H. eapply wp_mono; [exact H|auto|]. intros ? ? []. }
  unfold scrape_try. do 2 wp_step. cbn [this boot new_Scraper Scraper._CONFIG].
  apply (wp_bind_with (fun _ _ => True));
    [apply Hweak, setupBrowser_resolves, Hcoop|].
  intros b m1 _.
  apply (wp_bind_with (fun _ m => Scraper.browser (this m) <> None));
    [wp_step; discriminate|].
  intros _ m2 Hb.
  apply (wp_bind_with (fun _ _ => True));
    [apply Hweak, setupContext_resolves; [exact Hcoop|exact Hb]|].
  intros c m3 _.
  apply (wp_bind_with (fun _ m => Scraper.context (this m) <> None));
    [wp_step; discriminate|].
  intros _ m4 Hc.
  apply (wp_bind_with (fun _ _ => True));
    [apply Hweak, setupPage_resolves; [exact Hcoop|exact Hc]|].
  intros p m5 _.
  do 8 wp_step. do 2 wp_step;
    [|exfalso; exact (resolved_not_rejected _ _ (Hgoto _ _) H)].
  apply (wp_bind_with (fun _ _ => True)).
  { destruct (IScraperConfig.wait_for cfg) as [w|]; [|wp_step; exact I].
    destruct (truthy_number w); [|wp_step; exact I].
    wp_step; [exact I|coop_contra Hcoop]. }
  intros _ m6 _.
  apply (wp_bind_with (fun _ _ => True)).
  { destruct (IScraperConfig.wait_for_css cfg) as [css|]; [|wp_step; exact I].
    destruct (truthy_string css); [|wp_step; exact I].
    wp_step; [exact I|coop_contra Hcoop]. }
  intros _ m7 _.
  wp_step. rewrite Hjs, Hdecode. wp_step. reflexivity.
Qed.
End Malformed.

(** X6: when the configured script does not decode, the session never asks
    the page to evaluate anything and returns a failure envelope; when the
    requests made before the evaluation all resolve, its message is the one
    of the decoding error. *)
Theorem malformed_script env svc cfg js e :
  IScraperConfig.eval_js cfg = Some js ->
  decodeURIComponent js = inl e ->
  (forall script, ~ In (CEvaluate script) (calls (snd (session env svc cfg))))
  /\ (exists msg, fst (session env svc cfg) = Normal (failure_of cfg msg))
  /\ (cooperative svc -> (forall u w, resolved (goto svc u w)) ->
      fst (session env svc cfg) = Normal (failure_of cfg (message e))).
Proof.
  intros Hjs Hdecode. split; [|split].
  - intros script Hin.
    apply page_step_In in Hin; [|reflexivity].
    apply evaluate_in_page_steps in Hin.
    destruct Hin as (js' & Hjs' & Hd). congruence.
  - pose proof (session_of_try env svc cfg) as Hs.
    pose proof (scrape_try_malformed env svc cfg js e Hjs Hdecode) as Hw.
    unfold wp in Hw.
    destruct (scrape_try env svc (boot (new_Scraper env cfg))) as [[r|e'] m1];
      [destruct Hw|eauto].
  - intros Hcoop Hgoto.
    pose proof (session_of_try env svc cfg) as Hs.
    pose proof (scrape_try_malformed_cooperative env svc cfg js e Hjs Hdecode
                  Hcoop Hgoto) as Hw.
    unfold wp in Hw.
    destruct (scrape_try env svc (boot (new_Scraper env cfg))) as [[r|e'] m1];
      [destruct Hw|]. subst e'. exact Hs.
Qed.

Lemma malformed_script_witness :
  fst (session ∅ (obliging (Some html_response)) (script_config "a % b"))
  = Normal (failure_of (script_config "a % b") "URI malformed").
Proof.
  refine (proj2 (proj2 (malformed_script ∅ (obliging (Some html_response))
                          (script_config "a % b") "a % b"
                          (mkError "URI malformed") _ _)) _ _).
  - reflexivity.
  - reflexivity.
  - apply obliging_cooperative.
  - intros u w. eexists. reflexivity.
Defined.

(** ** Which page steps a session makes *)

Lemma page_steps_In cfg t c :
  In c (page_steps cfg t) <->
  c = navigation cfg
  \/ (exists w, IScraperConfig.wait_for cfg = Some w
                /\ truthy_number w = true /\ c = CWaitForTimeout w)
  \/ (exists css, IScraperConfig.wait_for_css cfg = Some css
                  /\ truthy_string css = true /\ c = CWaitForSelector css)
  \/ (exists js script, IScraperConfig.eval_js cfg = Some js
                        /\ decodeURIComponent js = inr script
                        /\ c = CEvaluate script)
  \/ (exists v, IScraperConfig.screenshot cfg = Some v
                /\ truthy_StringBoolean v = true
                /\ c = CScreenshot true (t / 2)%Q)
  \/ c = CContent
  \/ c = CCookies.
Proof.
  change (In c (page_steps cfg t))
    with (navigation cfg = c
          \/ In c (fixed_wait cfg ++ selector_wait cfg ++ script_evaluation cfg
                   ++ full_page_screenshot cfg t ++ [CContent; CCookies])).
  unfold fixed_wait, selector_wait, script_evaluation, full_page_screenshot.
  rewrite !in_app_iff.
  assert (H1 : In c match IScraperConfig.wait_for cfg with
                    | Some w => if truthy_number w then [CWaitForTimeout w] else []
                    | None => []
                    end
               <-> exists w, IScraperConfig.wait_for cfg = Some w
                             /\ truthy_number w = true /\ c = CWaitForTimeout w).
  { destruct (IScraperConfig.wait_for cfg) as [w|].
    - destruct (truthy_number w) eqn:E; simpl.
      + split; [intros [<-|[]]; eauto|].
        intros (w' & Hw & _ & ->). injection Hw as ->. left. reflexivity.
      + split; [intros []|]. intros (w' & Hw & Ht & _).
        injection Hw as ->. congruence.
    - simpl. split; [intros []|]. intros (w' & Hw & _). discriminate. }
  assert (H2 : In c match IScraperConfig.wait_for_css cfg with
                    | Some css =>
                        if truthy_string css then [CWaitForSelector css] else []
                    | None => []
                    end
               <-> exists css, IScraperConfig.wait_for_css cfg = Some css
                               /\ truthy_string css = true
                               /\ c = CWaitForSelector css).
  { destruct (IScraperConfig.wait_for_css cfg) as [css|].
    - destruct (truthy_string css) eqn:E; simpl.
      + split; [intros [<-|[]]; eauto|].
        intros (w' & Hw & _ & ->). injection Hw as ->. left. reflexivity.
      + split; [intros []|]. intros (w' & Hw & Ht & _).
        injection Hw as ->. congruence.
    - simpl. split; [intros []|]. intros (w' & Hw & _). discriminate. }
  assert (H3 : In c match IScraperConfig.eval_js cfg with
                    | Some js =>
                        match decodeURIComponent js with
                        | inr script => [CEvaluate script]
                        | inl _ => []
                        end
                    | None => []
                    end
               <-> exists js script, IScraperConfig.eval_js cfg = Some js
                                     /\ decodeURIComponent js = inr script
                                     /\ c = CEvaluate script).
  { destruct (IScraperConfig.eval_js cfg) as [js|].
    - destruct (decodeURIComponent js) as [e|script] eqn:E; simpl.
      + split; [intros []|]. intros (js' & s & Hj & Hd & _).
        injection Hj as <-. congruence.
      + split; [intros [<-|[]]; eauto|].
        intros (js' & s & Hj & Hd & ->). injection Hj as <-.
        left. congruence.
    - simpl. split; [intros []|]. intros (js' & s & Hj & _). discriminate. }
  assert (H4 : In c match IScraperConfig.screenshot cfg with
                    | Some v =>
                        if truthy_StringBoolean v
                        then [CScreenshot true (t / 2)%Q] else []
                    | None => []
                    end
               <-> exists v, IScraperConfig.screenshot cfg = Some v
                             /\ truthy_StringBoolean v = true
                             /\ c = CScreenshot true (t / 2)%Q).
  { destruct (IScraperConfig.screenshot cfg) as [v|].
    - destruct (truthy_StringBoolean v) eqn:E; simpl.
      + split; [intros [<-|[]]; eauto|].
        intros (v' & Hv & _ & ->). left. reflexivity.
      + split; [intros []|]. intros (v' & Hv & Ht & _).
        injection Hv as <-. congruence.
    - simpl. split; [intros []|]. intros (v' & Hv & _). discriminate. }
  rewrite H1, H2, H3, H4. simpl.
  split.
  - intros [H|[H|[H|[H|[H|[H|[H|[]]]]]]]]; subst; auto 10.
  - intros [H|[H|[H|[H|[H|[H|H]]]]]]; subst; auto 10.
Qed.

Lemma session_page_steps_success env svc cfg r :
  fst (session env svc cfg) = Normal r ->
  IScraperResult.error r = None ->
  page_steps_of (snd (session env svc cfg))
  = page_steps cfg (effective_timeout cfg).
Proof.
  unfold session. intros Hr He.
  destruct (scrape_try_emits env svc (boot (new_Scraper env cfg)))
    as (l' & Hl & _ & Hn).
  simpl in Hl, Hn. rewrite timeout_of_new_Scraper in Hn.
  rewrite run_page_steps, Hl. apply (Hn r). apply run_success_inv; assumption.
Qed.

Lemma success_page_step_In env svc cfg r c :
  fst (session env svc cfg) = Normal r ->
  IScraperResult.error r = None ->
  is_page_step c = true ->
  In c (calls (snd (session env svc cfg)))
  <-> In c (page_steps cfg (effective_timeout cfg)).
Proof.
  intros Hr He Hc.
  rewrite <- (session_page_steps_success env svc cfg r Hr He).
  unfold page_steps_of. rewrite filter_In. tauto.
Qed.

Lemma success_decodes env svc cfg r js :
  fst (session env svc cfg) = Normal r ->
  IScraperResult.error r = None ->
  IScraperConfig.eval_js cfg = Some js ->
  exists script, decodeURIComponent js = inr script.
Proof.
  intros Hr He Hjs.
  destruct (decodeURIComponent js) as [e|script] eqn:Hd; [|eauto].
  exfalso.
  pose proof (session_of_try env svc cfg) as Hs.
  pose proof (scrape_try_malformed env svc cfg js e Hjs Hd) as Hw.
  unfold wp in Hw.
  destruct (scrape_try env svc (boot (new_Scraper env cfg))) as [[r'|e'] m1];
    [destruct Hw|].
  rewrite Hs in Hr. injection Hr as <-. discriminate He.
Qed.

Lemma truthy_number_spec (q : Q) : truthy_number q = true <-> ~ (q == 0)%Q.
Proof.
  unfold truthy_number. rewrite negb_true_iff.
  destruct (Qeq_bool q 0) eqn:E.
  - apply Qeq_bool_iff in E. split; [discriminate|]. intros H. contradiction.
  - split; [|reflexivity]. intros _ H. apply Qeq_bool_iff in H. congruence.
Qed.

Lemma truthy_string_spec (s : string) : truthy_string s = true <-> s <> "".
Proof.
  unfold truthy_string. destruct (String.eqb_spec s ""); simpl.
  - split; [discriminate|]. intros H. contradiction.
  - split; auto.
Qed.

Lemma truthy_StringBoolean_spec (v : StringBoolean) :
  truthy_StringBoolean v = true <-> v <> SBBool false /\ v <> SBString "".
Proof.
  destruct v as [s|[|]]; simpl.
  - rewrite truthy_string_spec. split.
    + intros H. split; [discriminate|]. intros E. injection E as ->. auto.
    + intros [_ H] E. apply H. congruence.
  - split; [|reflexivity]. intros _. split; discriminate.
  - split; [discriminate|]. intros [H _]. now elim H.
Qed.

(** X7: in a session that succeeds, the fixed wait is made exactly when
    [wait_for] is a non-zero number, the wait for the selector exactly when
    [wait_for_css] is a non-empty string, the evaluation exactly when
    [eval_js] is defined (an empty script included), and the screenshot
    exactly when [screenshot] is truthy for JavaScript, that is, anything but
    [false] and the empty string. *)
Theorem optional_steps_run env svc cfg r :
  fst (session env svc cfg) = Normal r ->
  IScraperResult.error r = None ->
  ((exists ms, In (CWaitForTimeout ms) (calls (snd (session env svc cfg))))
   <-> exists w, IScraperConfig.wait_for cfg = Some w /\ ~ (w == 0)%Q)
  /\ ((exists css, In (CWaitForSelector css) (calls (snd (session env svc cfg))))
      <-> exists css, IScraperConfig.wait_for_css cfg = Some css /\ css <> "")
  /\ ((exists s, In (CEvaluate s) (calls (snd (session env svc cfg))))
      <-> exists js, IScraperConfig.eval_js cfg = Some js)
  /\ ((exists f t, In (CScreenshot f t) (calls (snd (session env svc cfg))))
      <-> exists v, IScraperConfig.screenshot cfg = Some v
                    /\ v <> SBBool false /\ v <> SBString "").
Proof.
  intros Hr He.
  pose proof (fun c Hc => success_page_step_In env svc cfg r c Hr He Hc) as Hin.
  repeat split.
  - intros (ms & H). apply Hin in H; [|reflexivity]. apply page_steps_In in H.
    unfold navigation in H.
    destruct H as [H|[(w & Hw & Ht & H)|[(x & _ & _ & H)|[(x & y & _ & _ & H)
                  |[(x & _ & _ & H)|[H|H]]]]]]; try discriminate.
    exists w. split; [exact Hw|]. apply truthy_number_spec, Ht.
  - intros (w & Hw & Hz). exists w. apply Hin; [reflexivity|].
    apply page_steps_In. right. left. exists w.
    repeat split; [exact Hw|apply truthy_number_spec, Hz].
  - intros (css & H). apply Hin in H; [|reflexivity]. apply page_steps_In in H.
    unfold navigation in H.
    destruct H as [H|[(x & _ & _ & H)|[(c & Hc & Ht & H)|[(x & y & _ & _ & H)
                  |[(x & _ & _ & H)|[H|H]]]]]]; try discriminate.
    exists c. split; [exact Hc|]. apply truthy_string_spec, Ht.
  - intros (css & Hc & Hn). exists css. apply Hin; [reflexivity|].
    apply page_steps_In. right. right. left. exists css.
    repeat split; [exact Hc|apply truthy_string_spec, Hn].
  - intros (s & H). apply Hin in H; [|reflexivity]. apply page_steps_In in H.
    unfold navigation in H.
    destruct H as [H|[(x & _ & _ & H)|[(x & _ & _ & H)|[(js & y & Hj & _ & H)
                  |[(x & _ & _ & H)|[H|H]]]]]]; try discriminate.
    exists js. exact Hj.
  - intros (js & Hj).
    destruct (success_decodes env svc cfg r js Hr He Hj) as [script Hd].
    exists script. apply Hin; [reflexivity|].
    apply page_steps_In. right. right. right. left. exists js, script.
    repeat split; assumption.
  - intros (f & t & H). apply Hin in H; [|reflexivity].
    apply page_steps_In in H. unfold navigation in H.
    destruct H as [H|[(x & _ & _ & H)|[(x & _ & _ & H)|[(x & y & _ & _ & H)
                  |[(v & Hv & Ht & H)|[H|H]]]]]]; try discriminate.
    exists v. split; [exact Hv|]. apply truthy_StringBoolean_spec, Ht.
  - intros (v & Hv & Hn). exists true, (effective_timeout cfg / 2)%Q.
    apply Hin; [reflexivity|].
    apply page_steps_In. right. right. right. right. left. exists v.
    repeat split; [exact Hv|apply truthy_StringBoolean_spec, Hn].
Qed.

Lemma optional_steps_run_witness :
  exists f t,
    In (CScreenshot f t)
       (calls (snd (session ∅ (obliging (Some html_response)) screenshot_false))).
Proof.
  refine (proj2 (proj2 (proj2 (proj2
            (optional_steps_run ∅ (obliging (Some html_response))
               screenshot_false _ _ _)))) _).
  - vm_compute. reflexivity.
  - reflexivity.
  - exists (SBString "false"). split; [reflexivity|]. split; discriminate.
Defined.

(** X8: a session navigates with the wait condition of the configuration,
    [domcontentloaded] when there is none, and to the configured URL, with
    the prefix "view-source:" exactly when [view_source] is set to one of the
    strings [parseBool] accepts; an unset [view_source] gives no prefix. *)
Theorem navigation_target env svc cfg u w :
  In (CGoto u w) (calls (snd (session env svc cfg))) ->
  w = default domcontentloaded (IScraperConfig.wait_until cfg)
  /\ ((u = ("view-source:" ++ IScraperConfig.url cfg)%string
       /\ exists v, IScraperConfig.view_source cfg = Some v
                    /\ parseBool (Some v) = true)
      \/ (u = IScraperConfig.url cfg
          /\ (IScraperConfig.view_source cfg = None
              \/ exists v, IScraperConfig.view_source cfg = Some v
                           /\ parseBool (Some v) = false))).
Proof.
  intros H. apply page_step_In in H; [|reflexivity].
  apply page_steps_In in H.
  destruct H as [H|[(x & _ & _ & H)|[(x & _ & _ & H)|[(x & y & _ & _ & H)
                |[(x & _ & _ & H)|[H|H]]]]]]; try discriminate.
  unfold navigation in H.
  assert (Hw : w = default domcontentloaded (IScraperConfig.wait_until cfg))
    by congruence.
  assert (Hu : u = match IScraperConfig.view_source cfg with
                   | Some v =>
                       if parseBool (Some v)
                       then ("view-source:" ++ IScraperConfig.url cfg)%string
                       else IScraperConfig.url cfg
                   | None => IScraperConfig.url cfg
                   end) by congruence.
  clear H. split; [exact Hw|].
  destruct (IScraperConfig.view_source cfg) as [v|]; [|right; auto].
  destruct (parseBool (Some v)) eqn:E; [left|right]; eauto.
Qed.

Lemma navigation_target_witness :
  domcontentloaded
  = default domcontentloaded (IScraperConfig.wait_until full_config)
  /\ (("https://example.com"
       = ("view-source:" ++ IScraperConfig.url full_config)%string
       /\ exists v, IScraperConfig.view_source full_config = Some v
                    /\ parseBool (Some v) = true)
      \/ ("https://example.com" = IScraperConfig.url full_config
          /\ (IScraperConfig.view_source full_config = None
              \/ exists v, IScraperConfig.view_source full_config = Some v
                           /\ parseBool (Some v) = false))).
Proof.
  refine (navigation_target ∅ (obliging (Some html_response)) full_config
            "https://example.com" domcontentloaded _).
  vm_compute. auto 20.
Defined.

(** ** Where the errors of a session come from *)

Section Sources.
Variable env : gmap string string.
Variable svc : Service.
Variable cfg : IScraperConfig.t.




End Sources.



(** ** The requests of a whole session *)

Section Traces.
Variable s0 : Scraper.t.

Lemma traces_ret {A} (a : A) : traces s0 (ret a) [].
Proof.
  intros m Hs. split; [exact Hs|]. exists []. simpl.
  split; [symmetry; apply app_nil_r|]. split; auto.
Qed.

Lemma traces_throw {A} e l : traces s0 (@throw A e) l.
Proof.
  intros m Hs. split; [exact Hs|]. exists []. simpl.
  split; [symmetry; apply app_nil_r|]. split; [apply prefix_nil|].
  intros a Ha. discriminate Ha.
Qed.

Lemma traces_bind {A B} (x : M A) (k : A -> M B) l1 l2 :
  traces s0 x l1 -> (forall a, traces s0 (k a) l2) ->
  traces s0 (bind x k) (l1 ++ l2).
Proof.
  intros Hx Hk m Hs. unfold bind.
  destruct (Hx m Hs) as (Hs1 & l1' & Hl1 & Hp1 & Hn1).
  destruct (x m) as [[a|e] m1]; simpl in *.
  - destruct (Hk a m1 Hs1) as (Hs2 & l2' & Hl2 & Hp2 & Hn2).
    split; [exact Hs2|]. rewrite (Hn1 a eq_refl) in Hl1.
    exists (l1 ++ l2'). rewrite Hl2, Hl1, app_assoc.
    split; [reflexivity|]. split; [apply prefix_app, Hp2|].
    intros b Hb. f_equal. apply (Hn2 b Hb).
  - split; [exact Hs1|]. exists l1'. split; [exact Hl1|].
    split; [destruct Hp1 as [k' ->]; exists (k' ++ l2);
            rewrite app_assoc; reflexivity|].
    intros b Hb. discriminate Hb.
Qed.

Lemma traces_bind_nil {A B} (x : M A) (k : A -> M B) l :
  traces s0 x [] -> (forall a, traces s0 (k a) l) -> traces s0 (bind x k) l.
Proof. intros Hx Hk. exact (traces_bind x k [] l Hx Hk). Qed.

Lemma traces_bind_cons {A B} (x : M A) (k : A -> M B) c l :
  traces s0 x [c] -> (forall a, traces s0 (k a) l) ->
  traces s0 (bind x k) (c :: l).
Proof. intros Hx Hk. exact (traces_bind x k [c] l Hx Hk). Qed.

Lemma traces_get_this {A} (k : Scraper.t -> M A) l :
  (forall s, static_of s = static_of s0 -> traces s0 (k s) l) ->
  traces s0 (bind get_this k) l.
Proof. intros Hk m Hs. exact (Hk (this m) Hs m Hs). Qed.

Lemma traces_await {A} c (r : Reply A) :
  is_request c = true -> traces s0 (await c r) [c].
Proof.
  intros Hc m Hs. unfold await.
  assert (H : static_of (this (fold_left deliver (emitted r) (record c m)))
              = static_of s0
              /\ requests_of (fold_left deliver (emitted r) (record c m))
                 = requests_of m ++ [c]).
  { split.
    - rewrite delivered_this. exact Hs.
    - unfold requests_of. rewrite delivered_calls by reflexivity.
      simpl. rewrite List.filter_app. simpl. rewrite Hc. reflexivity. }
  destruct H as [H1 H2].
  destruct (settled r); simpl; (split; [exact H1|]); exists [c];
    (split; [exact H2|]); split; auto.
Qed.

Lemma traces_modify f seg :
  (forall m, static_of (this (f m)) = static_of (this m)
             /\ requests_of (f m) = requests_of m ++ seg) ->
  traces s0 (modify f) seg.
Proof.
  intros Hf m Hs. destruct (Hf m) as [H1 H2]. simpl.
  split; [congruence|]. exists seg. split; [exact H2|]. split; auto.
Qed.
End Traces.

(** The [modify] steps of the session. *)
Lemma traces_set s0 (f : Scraper.t -> Scraper.t) :
  (forall s, static_of (f s) = static_of s) ->
  traces s0 (modify (with_this f)) [].
Proof.
  intros Hf. apply traces_modify. intros m. split; [apply Hf|].
  symmetry. apply app_nil_r.
Qed.

Lemma traces_call s0 c : is_request c = true -> traces s0 (call c) [c].
Proof.
  intros Hc. apply traces_modify. intros m. split; [reflexivity|].
  unfold requests_of. simpl. rewrite List.filter_app. simpl. rewrite Hc.
  reflexivity.
Qed.

Lemma traces_page_on s0 ev : traces s0 (page_on ev) [COn ev].
Proof.
  apply traces_modify. intros m. split; [reflexivity|].
  unfold requests_of. simpl. rewrite List.filter_app. reflexivity.
Qed.

Lemma timeout_static env cfg s :
  static_of s = static_of (new_Scraper env cfg) ->
  Scraper._CONFIG s = cfg
  /\ Scraper.launchOptions s = launch_of env cfg
  /\ Scraper.timeout s = effective_timeout cfg.
Proof.
  unfold static_of. intros H. injection H as Hc Hl Ht. simpl in Hc, Hl, Ht.
  repeat split; [exact Hc|exact Hl|].
  unfold Scraper.timeout, effective_timeout. rewrite Hc, Ht.
  destruct (IScraperConfig.timeout cfg); reflexivity.
Qed.

Section TrySteps.
Variable env : gmap string string.
Variable svc : Service.
Variable cfg : IScraperConfig.t.

Lemma setupBrowser_traces :
  traces (new_Scraper env cfg) (setupBrowser env svc)
         [CConnect (descriptor_of env cfg)].
Proof.
  unfold setupBrowser. apply traces_get_this. intros s Hs.
  destruct (timeout_static env cfg s Hs) as (Hc & Hl & _).
  cbv zeta. rewrite Hc, Hl.
  apply traces_bind_cons; [apply traces_await; reflexivity|].
  intros _. apply traces_ret.
Qed.

Lemma setupContext_traces :
  traces (new_Scraper env cfg) (setupContext svc)
         [CNewContext (launch_of env cfg)].
Proof.
  unfold setupContext. apply traces_get_this. intros s Hs.
  destruct (timeout_static env cfg s Hs) as (_ & Hl & _). rewrite Hl.
  destruct (Scraper.browser s) as [br|]; [|apply traces_throw].
  apply traces_bind_cons; [apply traces_await; reflexivity|].
  intros _. apply traces_ret.
Qed.

Lemma setupPage_traces :
  traces (new_Scraper env cfg) (setupPage svc)
         (CNewPage :: interception cfg
                      ++ [CSetDefaultTimeout (effective_timeout cfg)]).
Proof.
  unfold setupPage. apply traces_get_this. intros s Hs.
  destruct (timeout_static env cfg s Hs) as (Hc & _ & Ht). rewrite Hc, Ht.
  destruct (Scraper.context s) as [ctx|]; [|apply traces_throw].
  apply traces_bind_cons; [apply traces_await; reflexivity|]. intros _.
  apply traces_bind.
  - unfold interception.
    destruct (IScraperConfig.block_resources cfg) as [b|]; [|apply traces_ret].
    destruct (truthy_string b); [|apply traces_ret].
    apply traces_await. reflexivity.
  - intros _. apply traces_bind_cons; [apply traces_call; reflexivity|].
    intros _. apply traces_ret.
Qed.

Lemma scrape_try_traces :
  traces (new_Scraper env cfg) (scrape_try env svc) (try_steps env cfg).
Proof.
  unfold scrape_try. apply traces_get_this. intros s Hs.
  destruct (timeout_static env cfg s Hs) as (Hc & _ & Ht).
  cbv zeta. rewrite Hc, Ht. unfold try_steps.
  apply traces_bind_cons; [apply setupBrowser_traces|intros b].
  apply traces_bind_nil; [apply traces_set; reflexivity|intros _].
  apply traces_bind_cons; [apply setupContext_traces|intros c].
  apply traces_bind_nil; [apply traces_set; reflexivity|intros _].
  change (CNewPage :: interception cfg
          ++ CSetDefaultTimeout (effective_timeout cfg)
             :: COn Crash :: COn Close :: COn Dialog
             :: page_steps cfg (effective_timeout cfg))
    with ((CNewPage :: interception cfg)
          ++ [CSetDefaultTimeout (effective_timeout cfg)]
          ++ COn Crash :: COn Close :: COn Dialog
             :: page_steps cfg (effective_timeout cfg)).
  rewrite app_assoc.
  apply traces_bind; [apply setupPage_traces|intros p].
  apply traces_bind_nil; [apply traces_set; reflexivity|intros _].
  do 3 (apply traces_bind_cons; [apply traces_page_on|intros _]).
  unfold page_steps, navigation.
  apply traces_bind_cons; [apply traces_await; reflexivity|intros res].
  apply traces_bind.
  { unfold fixed_wait.
    destruct (IScraperConfig.wait_for cfg) as [w|]; [|apply traces_ret].
    destruct (truthy_number w); [|apply traces_ret].
    apply traces_await. reflexivity. }
  intros _. apply traces_bind.
  { unfold selector_wait.
    destruct (IScraperConfig.wait_for_css cfg) as [css|]; [|apply traces_ret].
    destruct (truthy_string css); [|apply traces_ret].
    apply traces_await. reflexivity. }
  intros _. apply traces_bind.
  { unfold script_evaluation.
    destruct (IScraperConfig.eval_js cfg) as [js|]; [|apply traces_ret].
    destruct (decodeURIComponent js) as [e|script]; [apply traces_throw|].
    apply traces_bind_cons; [apply traces_await; reflexivity|].
    intros v. apply traces_ret. }
  intros r1. apply traces_bind.
  { unfold full_page_screenshot.
    destruct (IScraperConfig.screenshot cfg) as [v|]; [|apply traces_ret].
    destruct (truthy_StringBoolean v); [|apply traces_ret].
    apply traces_bind_cons; [apply traces_await; reflexivity|].
    intros buff. apply traces_ret. }
  intros r2.
  apply traces_bind_cons; [apply traces_await; reflexivity|intros body].
  apply traces_bind_cons; [apply traces_await; reflexivity|intros cookies].
  apply traces_ret.
Qed.
End TrySteps.

Lemma requests_record c m :
  requests_of (record c m)
  = requests_of m ++ (if is_request c then [c] else []).
Proof.
  unfold requests_of. simpl. rewrite List.filter_app. simpl.
  destruct (is_request c); reflexivity.
Qed.

Lemma requests_deliver m ev : requests_of (deliver m ev) = requests_of m.
Proof.
  unfold deliver. destruct (listening (event ev) m); [|reflexivity].
  destruct (event ev); try reflexivity.
  unfold dialog. rewrite requests_record. apply app_nil_r.
Qed.

Lemma grows_refl m : grows m m.
Proof. unfold grows. reflexivity. Qed.

Lemma grows_trans m1 m2 m3 : grows m1 m2 -> grows m2 m3 -> grows m1 m3.
Proof. unfold grows. intros H1 H2. etransitivity; eassumption. Qed.

Lemma grows_record c m : grows m (record c m).
Proof. unfold grows. rewrite requests_record. apply prefix_app_r. reflexivity. Qed.

Lemma grows_deliver m ev : grows m (deliver m ev).
Proof. unfold grows. rewrite requests_deliver. reflexivity. Qed.

Ltac keeps_grows :=
  keeps_tac grows_refl grows_trans grows_record grows_deliver;
  try (unfold grows, requests_of; simpl; rewrite ?List.filter_app;
       try apply prefix_app_r; reflexivity).

Lemma requests_extended m cs ls :
  requests_of (extended m cs ls) = requests_of m ++ List.filter is_request cs.
Proof. unfold requests_of, extended. simpl. apply List.filter_app. Qed.

Lemma teardown_requests svc s :
  List.filter is_request (teardown_calls svc s) = teardown_calls svc s.
Proof.
  unfold teardown_calls, unsubscriptions, closing_calls.
  destruct (Scraper.page s), (Scraper.context s), (Scraper.browser s),
    (isConnected svc); reflexivity.
Qed.

(** The machine a session ends on, from the one its [try] block ends on. *)
Lemma session_machine env svc cfg :
  snd (session env svc cfg)
  = extended (snd (scrape_try env svc (boot (new_Scraper env cfg))))
      (teardown_calls svc
         (this (snd (scrape_try env svc (boot (new_Scraper env cfg))))))
      (closing_log svc
         (this (snd (scrape_try env svc (boot (new_Scraper env cfg)))))).
Proof.
  destruct (try_part_returns env svc (boot (new_Scraper env cfg))) as [r Hb].
  assert (Hh : held (snd (scrape_try env svc (boot (new_Scraper env cfg))))).
  { destruct (wp_elim _ _ _ _ (scrape_try_held env svc cfg))
      as [(a & _ & H)|(e & _ & H)]; exact H. }
  unfold session, run.
  erewrite bind_Normal; [reflexivity|].
  apply try_catch_Normal. unfold scrape.
  eapply try_finally_Normal; [exact Hb|].
  apply scrape_finally_exact, Hh.
Qed.

Section FirstRequest.
Variable env : gmap string string.
Variable svc : Service.
Variable cfg : IScraperConfig.t.

(** Whatever happens next, the connection request has been made first. *)
Lemma scrape_try_connects_first :
  exists rest,
    requests_of (snd (scrape_try env svc (boot (new_Scraper env cfg))))
    = CConnect (descriptor_of env cfg) :: rest.
Proof.
  set (Q := fun m : Machine =>
              exists rest, requests_of m = CConnect (descriptor_of env cfg) :: rest).
  assert (Hw : wp (scrape_try env svc) (fun _ m => Q m) (fun _ m => Q m)
                  (boot (new_Scraper env cfg))).
  { assert (Hfirst : forall evs,
              Q (fold_left deliver evs
                   (record (CConnect (descriptor_of env cfg))
                      (boot (new_Scraper env cfg))))).
    { intros evs. exists []. unfold requests_of.
      rewrite delivered_calls by reflexivity. reflexivity. }
    unfold scrape_try. do 2 wp_step.
    apply (wp_bind_with (fun _ m => Q m)).
    - unfold setupBrowser. do 2 wp_step. do 2 wp_step; [|exact (Hfirst _)].
      wp_step. exact (Hfirst _).
    - intros b m1 (rest & Hrest).
      apply (wp_of_keeps grows); [unfold setupContext, setupPage; keeps_grows|].
      intros m2 [k Hk]. exists (rest ++ k). rewrite Hk, Hrest. reflexivity. }
  destruct (wp_elim _ _ _ _ Hw) as [(a & _ & H)|(e & _ & H)]; exact H.
Qed.

(** A [try] block that returns leaves the three handles set. *)
Lemma scrape_try_holds_all :
  wp (scrape_try env svc)
     (fun _ m => exists b c p,
                   Scraper.browser (this m) = Some b
                   /\ Scraper.context (this m) = Some c
                   /\ Scraper.page (this m) = Some p)
     (fun _ _ => True)
     (boot (new_Scraper env cfg)).
Proof.
  assert (Hk : forall A (x : M A) (Q : Machine -> Prop) m,
             keeps same_this x -> Q m ->
             (forall m', this m' = this m -> Q m -> Q m') ->
             wp x (fun _ m' => Q m') (fun _ _ => True) m).
  { intros A x Q m Hx Hq Hpres. eapply wp_mono.
    - apply (wp_of_keeps same_this x Q m Hx).
      intros m' Hm'. apply (Hpres m' Hm' Hq).
    - auto.
    - auto. }
  unfold scrape_try. do 2 wp_step. wp_skip.
  apply (wp_bind_with (fun _ m => exists b, Scraper.browser (this m) = Some b));
    [wp_step; simpl; eauto|].
  intros _ m2 Hb.
  apply (wp_bind_with (fun _ m => exists b, Scraper.browser (this m) = Some b)).
  { apply Hk; [unfold setupContext; keeps_this|exact Hb|].
    intros mx -> H. exact H. }
  intros c m3 (b3 & Hb3).
  apply (wp_bind_with
           (fun _ m => exists b c, Scraper.browser (this m) = Some b
                                   /\ Scraper.context (this m) = Some c));
    [wp_step; simpl; eauto|].
  intros _ m4 Hc.
  apply (wp_bind_with
           (fun _ m => exists b c, Scraper.browser (this m) = Some b
                                   /\ Scraper.context (this m) = Some c)).
  { apply Hk; [unfold setupPage; keeps_this|exact Hc|].
    intros mx -> H. exact H. }
  intros p m5 (b5 & c5 & Hb5 & Hc5).
  apply (wp_bind_with
           (fun _ m => exists b c p, Scraper.browser (this m) = Some b
                                     /\ Scraper.context (this m) = Some c
                                     /\ Scraper.page (this m) = Some p));
    [wp_step; simpl; eauto 10|].
  intros _ m6 Hp.
  apply Hk; [keeps_this|exact Hp|]. intros mx -> H. exact H.
Qed.
End FirstRequest.

(** X10: the requests of every session are, in this order, a prefix of the
    requests of the [try] block (the connection with the descriptor of the
    configuration, the context with the same launch options, the page, the
    interception rule when a block list is given, the default timeout, the
    three listeners, then the page steps) that starts with the connection
    request, followed by the teardown of the handles the session holds. *)
Theorem session_requests env svc cfg :
  exists rest,
    (CConnect (descriptor_of env cfg) :: rest) `prefix_of` try_steps env cfg
    /\ requests_of (snd (session env svc cfg))
       = (CConnect (descriptor_of env cfg) :: rest)
         ++ teardown_calls svc (this (snd (session env svc cfg))).
Proof.
  destruct (scrape_try_connects_first env svc cfg) as [rest Hrest].
  destruct (scrape_try_traces env svc cfg (boot (new_Scraper env cfg)) eq_refl)
    as (_ & l' & Hl & Hp & _).
  simpl in Hl. rewrite Hrest in Hl. subst l'.
  exists rest. split; [exact Hp|].
  rewrite session_machine, requests_extended, teardown_requests, Hrest.
  reflexivity.
Qed.

(** X11: the requests of a session that succeeds are exactly those of the
    [try] block followed by the whole teardown: the listeners off, the
    interception rule removed, the page and the context closed, and the
    connection closed if it is still open. *)
Theorem successful_session_requests env svc cfg r :
  fst (session env svc cfg) = Normal r ->
  IScraperResult.error r = None ->
  requests_of (snd (session env svc cfg))
  = try_steps env cfg ++ full_teardown svc.
Proof.
  intros Hr He.
  pose proof (session_of_try env svc cfg) as Hs.
  pose proof (scrape_try_holds_all env svc cfg) as Hh. unfold wp in Hh.
  destruct (scrape_try_traces env svc cfg (boot (new_Scraper env cfg)) eq_refl)
    as (_ & l' & Hl & _ & Hn).
  rewrite session_machine, requests_extended, teardown_requests.
  destruct (scrape_try env svc (boot (new_Scraper env cfg))) as [[r'|e] m1].
  - simpl in *. rewrite Hl, (Hn r' eq_refl).
    destruct Hh as (b & c & p & Hb & Hc & Hp).
    unfold teardown_calls, unsubscriptions, closing_calls, full_teardown.
    rewrite Hb, Hc, Hp. reflexivity.
  - rewrite Hs in Hr. injection Hr as <-. discriminate He.
Qed.

Lemma successful_session_requests_witness :
  requests_of (snd (session ∅ (obliging (Some html_response)) full_config))
  = [CConnect (mkDescriptor "ws://127.0.0.1" "chromium"
                 (LaunchOptions.mk true ["--headless"] None (Some true)
                    (Some true)));
     CNewContext (LaunchOptions.mk true ["--headless"] None (Some true)
                    (Some true));
     CNewPage; CRoute "**/*" ["image"; "media"]; CSetDefaultTimeout 30001;
     COn Crash; COn Close; COn Dialog;
     CGoto "https://example.com" domcontentloaded;
     CWaitForTimeout 250; CWaitForSelector "#main"; CEvaluate "1+1";
     CScreenshot true (30001 # 2); CContent; CCookies;
     COff Crash; COff Close; COff Dialog; CUnroute "**/*"; CPageClose;
     CContextClose; CRemoveAllListeners; CBrowserClose].
Proof.
  refine (successful_session_requests ∅ (obliging (Some html_response))
            full_config _ _ _).
  - vm_compute. reflexivity.
  - reflexivity.
Defined.

(** ** The dialog listener *)

Lemma dismissals_record c m :
  dismissals (record c m) = dismissals m + (if is_request c then 0 else 1).
Proof.
  unfold dismissals. simpl. rewrite List.filter_app, length_app. simpl.
  destruct (is_request c); reflexivity.
Qed.

Lemma page_steps_record c m :
  page_steps_of (record c m)
  = page_steps_of m ++ (if is_page_step c then [c] else []).
Proof.
  unfold page_steps_of. simpl. rewrite List.filter_app. simpl.
  destruct (is_page_step c); reflexivity.
Qed.

Lemma delivered_dismissals evs m :
  dismissals (fold_left deliver evs m)
  = dismissals m + (if listening Dialog m then dialogs evs else 0).
Proof.
  revert m. induction evs as [|ev evs IH]; intros m; simpl.
  - unfold dialogs. simpl. destruct (listening Dialog m); lia.
  - rewrite IH, deliver_listening. unfold deliver, dialogs. simpl.
    destruct (event ev) eqn:E; simpl.
    + destruct (listening Crash m); simpl; reflexivity.
    + destruct (listening Close m); simpl; reflexivity.
    + destruct (listening Dialog m); simpl; [|reflexivity].
      unfold dialog. rewrite dismissals_record. simpl. lia.
Qed.

Lemma delivered_page_steps evs m :
  page_steps_of (fold_left deliver evs m) = page_steps_of m.
Proof. unfold page_steps_of. apply delivered_calls. reflexivity. Qed.

Lemma dialogs_during_app svc l1 l2 :
  dialogs_during svc (l1 ++ l2) = dialogs_during svc l1 + dialogs_during svc l2.
Proof. unfold dialogs_during. rewrite map_app, list_sum_app. reflexivity. Qed.

Lemma wp_await_same {A} c (r : Reply A) (Q : Machine -> Prop) m :
  Q (fold_left deliver (emitted r) (record c m)) ->
  wp (await c r) (fun _ m' => Q m') (fun _ m' => Q m') m.
Proof. intros H. apply wp_await; intros; exact H. Qed.

Section Dialogs.
Variable env : gmap string string.
Variable svc : Service.

Lemma quiet_await evs c m :
  is_request c = true -> is_page_step c = false ->
  quiet svc m -> quiet svc (fold_left deliver evs (record c m)).
Proof.
  intros Hr Hp [Hl Hd]. rewrite delivered_deaf by exact Hl.
  split; [exact Hl|]. unfold dismissed_all in *.
  rewrite dismissals_record, page_steps_record, Hr, Hp, app_nil_r. lia.
Qed.

Lemma loud_await {A} (r : Reply A) c m :
  is_page_step c = true -> pending_events svc c = emitted r ->
  loud svc m -> loud svc (fold_left deliver (emitted r) (record c m)).
Proof.
  intros Hp He [Hl Hd]. split; [rewrite delivered_listeners; exact Hl|].
  unfold dismissed_all in *.
  assert (Hr : is_request c = true) by (destruct c; try reflexivity; discriminate).
  rewrite delivered_dismissals, delivered_page_steps, dismissals_record,
    page_steps_record, Hr, Hp, dialogs_during_app.
  unfold listening. simpl. rewrite Hl. simpl.
  unfold dialogs_during at 2. simpl. rewrite He. lia.
Qed.

Lemma scrape_try_dismisses cfg :
  wp (scrape_try env svc)
     (fun _ m => dismissed_all svc m) (fun _ m => dismissed_all svc m)
     (boot (new_Scraper env cfg)).
Proof.
  assert (Hq : forall A (x : M A) m,
             wp x (fun _ m' => quiet svc m') (fun _ m' => quiet svc m') m ->
             wp x (fun _ m' => quiet svc m')
                  (fun _ m' => dismissed_all svc m') m).
  { intros A x m H. eapply wp_mono; [exact H|auto|]. intros e m' [_ Hd]. exact Hd. }
  assert (Hl : forall A (x : M A) m,
             wp x (fun _ m' => loud svc m') (fun _ m' => loud svc m') m ->
             wp x (fun _ m' => loud svc m')
                  (fun _ m' => dismissed_all svc m') m).
  { intros A x m H. eapply wp_mono; [exact H|auto|]. intros e m' [_ Hd]. exact Hd. }
  unfold scrape_try. do 2 wp_step.
  apply (wp_bind_with (fun _ m => quiet svc m)).
  { apply Hq. unfold setupBrowser. do 2 wp_step.
    apply (wp_bind_with (fun _ m => quiet svc m)).
    - apply wp_await_same, quiet_await; try reflexivity.
      split; reflexivity.
    - intros _ m1 H1. wp_step. exact H1. }
  intros b m1 H1.
  apply (wp_bind_with (fun _ m => quiet svc m)); [wp_step; exact H1|].
  intros _ m2 H2.
  apply (wp_bind_with (fun _ m => quiet svc m)).
  { apply Hq. unfold setupContext. do 3 wp_step; [|wp_step; exact H2].
    apply (wp_bind_with (fun _ m => quiet svc m)).
    - apply wp_await_same, quiet_await; try reflexivity. exact H2.
    - intros _ m3 H3. wp_step. exact H3. }
  intros c m3 H3.
  apply (wp_bind_with (fun _ m => quiet svc m)); [wp_step; exact H3|].
  intros _ m4 H4.
  apply (wp_bind_with (fun _ m => quiet svc m)).
  { apply Hq. unfold setupPage. do 3 wp_step; [|wp_step; exact H4].
    apply (wp_bind_with (fun _ m => quiet svc m)).
    { apply wp_await_same, quiet_await; try reflexivity. exact H4. }
    intros _ m5 H5.
    apply (wp_bind_with (fun _ m => quiet svc m)).
    { destruct (IScraperConfig.block_resources _) as [bl|]; [|wp_step; exact H5].
      destruct (truthy_string bl); [|wp_step; exact H5].
      apply wp_await_same, quiet_await; try reflexivity. exact H5. }
    intros _ m6 H6. do 3 wp_step.
    destruct H6 as [Hl6 Hd6]. split; [exact Hl6|]. unfold dismissed_all in *.
    rewrite dismissals_record, page_steps_record. simpl.
    rewrite app_nil_r. lia. }
  intros p m5 H5.
  do 8 wp_step.
  match goal with
  | |- wp _ _ _ ?m => assert (H6 : loud svc m); [|revert H6; generalize m]
  end.
  { destruct H5 as [Hl5 Hd5]. split.
    - simpl. rewrite Hl5. reflexivity.
    - unfold dismissed_all, dismissals, page_steps_of in *. simpl.
      rewrite !List.filter_app. simpl. rewrite !app_nil_r. exact Hd5. }
  intros m6 H6.
  apply (wp_bind_with (fun _ m => loud svc m)).
  { apply Hl, wp_await_same, loud_await; [reflexivity|reflexivity|exact H6]. }
  intros res m7 H7.
  apply (wp_bind_with (fun _ m => loud svc m)).
  { apply Hl. destruct (IScraperConfig.wait_for _) as [w|]; [|wp_step; exact H7].
    destruct (truthy_number w); [|wp_step; exact H7].
    apply wp_await_same, loud_await; [reflexivity|reflexivity|exact H7]. }
  intros _ m8 H8.
  apply (wp_bind_with (fun _ m => loud svc m)).
  { apply Hl.
    destruct (IScraperConfig.wait_for_css _) as [css|]; [|wp_step; exact H8].
    destruct (truthy_string css); [|wp_step; exact H8].
    apply wp_await_same, loud_await; [reflexivity|reflexivity|exact H8]. }
  intros _ m9 H9.
  apply (wp_bind_with (fun _ m => loud svc m)).
  { apply Hl. destruct (IScraperConfig.eval_js _) as [js|]; [|wp_step; exact H9].
    destruct (decodeURIComponent js) as [e|script]; [wp_step; exact H9|].
    apply (wp_bind_with (fun _ m => loud svc m)).
    - apply wp_await_same, loud_await; [reflexivity|reflexivity|exact H9].
    - intros v m10 H10. wp_step. exact H10. }
  intros r1 m10 H10.
  apply (wp_bind_with (fun _ m => loud svc m)).
  { apply Hl.
    destruct (IScraperConfig.screenshot _) as [v|]; [|wp_step; exact H10].
    destruct (truthy_StringBoolean v); [|wp_step; exact H10].
    apply (wp_bind_with (fun _ m => loud svc m)).
    - apply wp_await_same, loud_await; [reflexivity|reflexivity|exact H10].
    - intros buff m11 H11. wp_step. exact H11. }
  intros r2 m11 H11.
  apply (wp_bind_with (fun _ m => loud svc m)).
  { apply Hl, wp_await_same, loud_await; [reflexivity|reflexivity|exact H11]. }
  intros body m12 H12.
  apply (wp_bind_with (fun _ m => loud svc m)).
  { apply Hl, wp_await_same, loud_await; [reflexivity|reflexivity|exact H12]. }
  intros cookies m13 [_ H13]. wp_step. exact H13.
Qed.
End Dialogs.

Lemma teardown_page_steps svc s :
  List.filter is_page_step (teardown_calls svc s) = [].
Proof.
  unfold teardown_calls, unsubscriptions, closing_calls.
  destruct (Scraper.page s), (Scraper.context s), (Scraper.browser s),
    (isConnected svc); reflexivity.
Qed.

Lemma teardown_dismissals svc s :
  List.filter (fun c => negb (is_request c)) (teardown_calls svc s) = [].
Proof.
  unfold teardown_calls, unsubscriptions, closing_calls.
  destruct (Scraper.page s), (Scraper.context s), (Scraper.browser s),
    (isConnected svc); reflexivity.
Qed.

(** X12: a session dismisses exactly the dialogs the page raises while one of
    its page steps is pending, each of them once: the listener is installed
    from the navigation to the reading of the cookies, and a dialog raised
    during the set-up or the teardown is left alone. *)
Theorem dialogs_dismissed env svc cfg :
  dismissals (snd (session env svc cfg))
  = dialogs_during svc (page_steps_of (snd (session env svc cfg))).
Proof.
  assert (H : dismissed_all svc
                (snd (scrape_try env svc (boot (new_Scraper env cfg))))).
  { destruct (wp_elim _ _ _ _ (scrape_try_dismisses env svc cfg))
      as [(a & _ & H)|(e & _ & H)]; exact H. }
  rewrite session_machine. unfold dismissed_all in H.
  unfold dismissals, page_steps_of, extended in *. simpl.
  rewrite !List.filter_app, teardown_page_steps, teardown_dismissals,
    !app_nil_r.
  exact H.
Qed.

Example dialogs_dismissed_twice :
  dismissals (snd (session ∅ alerting
                     (bare_config "https://example.com" ProxyType.None))) = 2.
Proof. vm_compute. reflexivity. Qed.
